(** * Python-Remote-Sensing-Scripts: MNF_cmd.py and clip.py

    A shallow embedding of the two command-line scripts and the properties
    their specification states about them.

    Conventions of the embedding.
    - A numpy array of rank three is a shape together with its elements in
      row-major (C) order, the layout [rasterio] hands out.
    - The scripts move the pixel values around without computing on them,
      with one exception: there the values are real numbers.  The exception
      is [BrigthnessNormalization], whose result depends on the dtype of
      the raster: module [Dtype] has that function with the arithmetic of
      numpy on the integer dtypes (wrap-around, float64 results) and on
      float64.
    - The numerical libraries (pysptools, scikit-learn, rasterio.mask) are
      parameters of the development; a call that raises returns [None].
    - The scripts print, create a directory, open and write files: those
      effects are recorded, in order, in a trace.  Opening an output raster
      and writing the array into it are one event, which stands for the
      script doing both; a refusal of rasterio at that point (a path that
      cannot be written, an array that does not fit the profile) is outside
      the model. *)

From Stdlib Require Import Reals Lra Lia ZArith List String Ascii Sorted.
From Stdlib Require PrimFloat SpecFloat FloatOps.
From stdpp Require Import gmap strings list fin_maps.

Local Open Scope nat_scope.

(** ** Rank-three numpy arrays *)

Module Numpy.

Record ndarray (A : Type) : Type := mk_ndarray {
  dim0 : nat;
  dim1 : nat;
  dim2 : nat;
  data : list A
}.
Arguments mk_ndarray {A} _ _ _ _.
Arguments dim0 {A} _.
Arguments dim1 {A} _.
Arguments dim2 {A} _.
Arguments data {A} _.

(** [arr.shape] *)
Definition shape {A} (a : ndarray A) : nat * nat * nat :=
  (dim0 a, dim1 a, dim2 a).

(** An array owns exactly as many elements as its shape announces. *)
Definition well_formed {A} (a : ndarray A) : Prop :=
  length (data a) = dim0 a * dim1 a * dim2 a.

(** Enumeration of a rank-three index space in row-major order. *)
Definition tab3 {A} (n0 n1 n2 : nat) (f : nat -> nat -> nat -> A) : list A :=
  flat_map (fun i =>
    flat_map (fun j => map (fun k => f i j k) (seq 0 n2)) (seq 0 n1))
    (seq 0 n0).

Section Indexing.
Context {A : Type} `{Inhabited A}.

(** Position of element [i, j, k] in the row-major buffer. *)
Definition offset (a : ndarray A) (i j k : nat) : nat :=
  (i * dim1 a + j) * dim2 a + k.

(** [arr[i, j, k]] for an index in range. *)
Definition get (a : ndarray A) (i j k : nat) : A :=
  nth (offset a i j k) (data a) inhabitant.

(** Length of the axis numbered [ax]. *)
Definition axis_len (a : ndarray A) (ax : nat) : nat :=
  match ax with
  | 0 => dim0 a
  | 1 => dim1 a
  | _ => dim2 a
  end.

(** [np.transpose(arr, axes)]: axis [n] of the result is axis [axes[n]] of
    [arr], so the result at [i0, i1, i2] is the element of [arr] whose
    index along source axis [axes[n]] is [i_n]. *)
Definition source_index (axes : nat * nat * nat) (i0 i1 i2 : nat) (s : nat) : nat :=
  let '(a0, a1, a2) := axes in
  if Nat.eqb a0 s then i0 else if Nat.eqb a1 s then i1 else i2.

Definition transpose (a : ndarray A) (axes : nat * nat * nat) : ndarray A :=
  let '(a0, a1, a2) := axes in
  let n0 := axis_len a a0 in
  let n1 := axis_len a a1 in
  let n2 := axis_len a a2 in
  mk_ndarray n0 n1 n2
    (tab3 n0 n1 n2 (fun i0 i1 i2 =>
       get a (source_index axes i0 i1 i2 0)
             (source_index axes i0 i1 i2 1)
             (source_index axes i0 i1 i2 2))).

End Indexing.

(** [a[:, j, k]]: the vector along axis 0 at one position of the other
    two axes (for a band-first raster, the band vector of one pixel). *)
Definition column {A} `{Inhabited A} (a : ndarray A) (j k : nat) : list A :=
  map (fun i => get a i j k) (seq 0 (dim0 a)).

(** [np.apply_along_axis(func1d, 0, arr)]: [func1d] is applied to every
    vector along axis 0; the length of the first result fixes the length of
    axis 0 of the output.  numpy raises [ValueError] when one of the
    iteration dimensions is 0. *)
Definition apply_along_axis {A B} `{Inhabited A} `{Inhabited B}
    (func1d : list A -> list B) (arr : ndarray A) : option (ndarray B) :=
  if Nat.eqb (dim1 arr * dim2 arr) 0 then None
  else
    let n0 := length (func1d (column arr 0 0)) in
    Some (mk_ndarray n0 (dim1 arr) (dim2 arr)
            (tab3 n0 (dim1 arr) (dim2 arr)
               (fun i j k => nth i (func1d (column arr j k)) inhabitant))).

(** Bound of a Python slice with step 1 on an axis of length [len]
    ([slice.indices]): a negative bound counts from the end, and the result
    is clamped to [0, len]. *)
Definition slice_bound (len : nat) (i : Z) : nat :=
  Z.to_nat (if (i <? 0)%Z then Z.max 0 (i + Z.of_nat len)
            else Z.min i (Z.of_nat len)).

(** [a[:, :, lo:hi]] *)
Definition slice_axis2 {A} `{Inhabited A} (a : ndarray A) (lo hi : Z) : ndarray A :=
  let s := slice_bound (dim2 a) lo in
  let e := slice_bound (dim2 a) hi in
  mk_ndarray (dim0 a) (dim1 a) (e - s)
    (tab3 (dim0 a) (dim1 a) (e - s) (fun i j k => get a i j (s + k))).

(** [a[:, :, lo:hi] = v], for a right-hand side of the shape of the slice
    (broadcasting of other shapes is not modelled: numpy raises unless the
    shapes are compatible). *)
Definition set_slice_axis2 {A} `{Inhabited A} (a : ndarray A) (lo hi : Z)
    (v : ndarray A) : option (ndarray A) :=
  let s := slice_bound (dim2 a) lo in
  let e := slice_bound (dim2 a) hi in
  if decide (shape v = (dim0 a, dim1 a, e - s)) then
    Some (mk_ndarray (dim0 a) (dim1 a) (dim2 a)
            (tab3 (dim0 a) (dim1 a) (dim2 a) (fun i j k =>
               if (s <=? k) && (k <? e) then get v i j (k - s)
               else get a i j k)))
  else None.

(** [a[:, :, 0]] as a list of rows; [IndexError] when axis 2 is empty. *)
Definition index_axis2_0 {A} `{Inhabited A} (a : ndarray A) : option (list (list A)) :=
  if Nat.eqb (dim2 a) 0 then None
  else Some (map (fun i => map (fun j => get a i j 0) (seq 0 (dim1 a)))
               (seq 0 (dim0 a))).

#[global] Instance R_inhabited : Inhabited R := populate 0%R.

(** [values.cumsum()] *)
Fixpoint cumsum_from (acc : R) (values : list R) : list R :=
  match values with
  | [] => []
  | x :: rest => (acc + x)%R :: cumsum_from (acc + x)%R rest
  end.

Definition cumsum (values : list R) : list R := cumsum_from 0%R values.

End Numpy.

(** ** numpy's arithmetic on the dtype of a raster *)

Module Dtype.

(** The integer dtypes a raster can have. *)
Inductive int_dtype : Set :=
| uint8 | int8 | uint16 | int16 | uint32 | int32 | uint64 | int64.

Definition bits (dt : int_dtype) : Z :=
  match dt with
  | uint8 | int8 => 8
  | uint16 | int16 => 16
  | uint32 | int32 => 32
  | uint64 | int64 => 64
  end%Z.

Definition signed (dt : int_dtype) : bool :=
  match dt with
  | int8 | int16 | int32 | int64 => true
  | uint8 | uint16 | uint32 | uint64 => false
  end.

(** What an operation that overflows leaves in an array of dtype [dt]: the
    exact result reduced to the range of the dtype (two's complement for the
    signed dtypes). *)
Definition wrap (dt : int_dtype) (z : Z) : Z :=
  (if signed dt
   then (z + 2 ^ (bits dt - 1)) mod 2 ^ bits dt - 2 ^ (bits dt - 1)
   else z mod 2 ^ bits dt)%Z.

(** The dtype in which [np.sum] adds up an integer array and returns the
    sum: the 64-bit integer of the same signedness. *)
Definition accumulator (dt : int_dtype) : int_dtype :=
  if signed dt then int64 else uint64.

(** Conversion of an integer to float64: to the nearest float, ties to
    even. *)
Definition to_float64 (z : Z) : PrimFloat.float :=
  FloatOps.SF2Prim
    (SpecFloat.binary_normalize FloatOps.prec FloatOps.emax z 0 false).

(** [img**2] on an integer array: the squares stay in the dtype of [img]. *)
Definition np_power2 (dt : int_dtype) (img : list Z) : list Z :=
  map (fun x => wrap dt (x * x)) img.

(** [np.sum(v, 0)] on a one-dimensional integer array. *)
Definition np_sum (dt : int_dtype) (v : list Z) : Z :=
  wrap (accumulator dt) (fold_right Z.add 0%Z v).

(** [np.sqrt(s)] on a 64-bit integer scalar: a float64. *)
Definition np_sqrt (s : Z) : PrimFloat.float :=
  PrimFloat.sqrt (to_float64 s).

(** [img / d] for an integer array and a float64 scalar: a float64 array;
    a zero [d] gives infinities and nan (and a warning), no exception. *)
Definition np_true_divide (img : list Z) (d : PrimFloat.float)
    : list PrimFloat.float :=
  map (fun x => PrimFloat.div (to_float64 x) d) img.

(** [BrigthnessNormalization(img)] for a band vector [img] of an integer
    dtype: [img / np.sqrt(np.sum((img**2), 0))]. *)
Definition BrigthnessNormalization (dt : int_dtype) (img : list Z)
    : list PrimFloat.float :=
  np_true_divide img (np_sqrt (np_sum dt (np_power2 dt img))).



(** The square of the L2 norm of an integer band vector, as an integer. *)
Definition sum_of_squares (img : list Z) : Z :=
  fold_right Z.add 0%Z (map (fun x => x * x)%Z img).


#[global] Instance float_inhabited : Inhabited PrimFloat.float :=
  populate PrimFloat.zero.

End Dtype.

(** ** Python strings and paths *)

Module Py.

(** [s[:-n]]: everything but the last [n] characters, the empty string when
    [s] has fewer than [n] characters. *)
Definition drop_last (n : nat) (s : string) : string :=
  substring 0 (String.length s - n) s.

Fixpoint basename_from (acc : string) (p : string) : string :=
  match p with
  | EmptyString => acc
  | String c rest =>
      if Ascii.eqb c "/"%char then basename_from EmptyString rest
      else basename_from (acc ++ String c EmptyString)%string rest
  end.

(** [os.path.basename(p)]: what follows the last slash. *)
Definition basename (p : string) : string := basename_from EmptyString p.

End Py.

(** ** Effects: a trace of events, and exceptions *)

Module Run.

(** A computation yields the events it performed and, unless an exception
    ended it, a value. *)
Definition M (E A : Type) : Type := (list E * option A)%type.

Definition ret {E A} (x : A) : M E A := ([], Some x).

Definition bind {E A B} (m : M E A) (f : A -> M E B) : M E B :=
  match m with
  | (t, None) => (t, None)
  | (t, Some x) => let '(t', r) := f x in (t ++ t', r)
  end.

Definition emit {E} (e : E) : M E unit := ([e], Some tt).

(** A library call: [None] is an exception that nobody catches. *)
Definition call {E A} (r : option A) : M E A := ([], r).

(** [for x in xs: body(x)] *)
Fixpoint for_each {E A} (xs : list A) (body : A -> M E unit) : M E unit :=
  match xs with
  | [] => ret tt
  | x :: rest => bind (body x) (fun _ => for_each rest body)
  end.

Definition trace {E A} (m : M E A) : list E := fst m.
Definition returned {E A} (m : M E A) : option A := snd m.

End Run.

Notation "x <- m ;; k" := (Run.bind m (fun x => k))
  (at level 100, m at next level, right associativity).
Notation "m ;;; k" := (Run.bind m (fun _ => k))
  (at level 100, right associativity).

(** ** rasterio *)

Module Rasterio.
Import Numpy.

(** A coordinate reference system and an affine georeferencing transform;
    the scripts only pass them on. *)
Definition CRS : Type := string.

Record Affine : Type := mk_Affine {
  coef_a : R; coef_b : R; coef_c : R;
  coef_d : R; coef_e : R; coef_f : R
}.

(** Values of the [meta] dictionary of a dataset. *)
Inductive meta_value : Type :=
| MStr (s : string)
| MInt (n : Z)
| MNumber (x : R)
| MCrs (c : CRS)
| MTransform (t : Affine)
| MNone.

(** What the scripts use of a dataset opened for reading. *)
Record DatasetReader : Type := mk_DatasetReader {
  ds_shape : nat * nat;                 (* [.shape]: (height, width) *)
  ds_dtypes : list string;              (* [.dtypes]: one per band *)
  ds_crs : CRS;                         (* [.crs] *)
  ds_transform : Affine;                (* [.transform] *)
  ds_meta : gmap string meta_value;     (* [.meta] *)
  ds_read : option (ndarray R)          (* [.read()]: (bands, rows, cols) *)
}.

(** Keyword arguments of [rasterio.open(path, 'w', ...)] in MNF_cmd.py. *)
Record Profile : Type := mk_Profile {
  driver : string;
  height : nat;
  width : nat;
  count : Z;
  dtype : string;
  crs : CRS;
  transform : Affine
}.

End Rasterio.

(** ** MNF_cmd.py *)

Module MNF_cmd.
Import Numpy Rasterio.

(** The numerical libraries the script calls.  An [MNF] object carries the
    state its [apply] leaves behind. *)
Record Libraries : Type := mk_Libraries {
  MNF_object : Type;
  ns_MNF : MNF_object;
  mnf_apply : MNF_object -> ndarray R -> option (MNF_object * ndarray R);
  mnf_get_components : MNF_object -> Z -> option (ndarray R);
  mnf_inverse_transform : MNF_object -> ndarray R -> option (ndarray R);
  dn_denoise_bands : ndarray R -> Z -> Z -> option (ndarray R);
  (* [PCA(n_components = n).fit(X, y).explained_variance_ratio_] *)
  pca_explained_variance_ratio : nat -> list (list R) -> nat -> option (list R)
}.

(** What the script sees of the file system. *)
Record Env : Type := mk_Env {
  glob : string -> list string;
  path_exists : string -> bool;
  rasterio_open : string -> option DatasetReader
}.

(** Parsed command line. *)
Record Args : Type := mk_Args {
  format : string;
  components : Z;
  method : Z;
  preprop : bool;
  variance : bool
}.

Inductive event : Type :=
| Makedirs (path : string)
| OpenRaster (path : string)
| Print (line : string)
| PrintArray (values : list R)
| WriteRaster (path : string) (profile : Profile) (img : ndarray R).

Abbreviation IO := (Run.M event).

(** The formula of [BrigthnessNormalization] read over the real numbers.
    The script computes the normalized array only to discard it
    (see [prepare_image]), so that nothing below depends on its values:
    what numpy computes on the dtype of the raster is in [Dtype]. *)

(** [np.sum(img**2, 0)] for a one-dimensional [img]. *)
Definition sum_of_squares (img : list R) : R :=
  fold_right Rplus 0%R (map (fun x => (x ^ 2)%R) img).

(** The L2 norm of a band vector. *)
Definition l2norm (img : list R) : R := sqrt (sum_of_squares img).

(** [BrigthnessNormalization(img)]: [img / np.sqrt(np.sum(img**2, 0))]. *)
Definition BrigthnessNormalization (img : list R) : list R :=
  map (fun x => (x / sqrt (sum_of_squares img))%R) img.

(** [reshape_as_image(arr)]: [np.ma.transpose(arr, [1,2,0])], from
    (bands, rows, columns) to (rows, columns, bands). *)
Definition reshape_as_image {A} `{Inhabited A} (arr : ndarray A) : ndarray A :=
  transpose arr (1, 2, 0).

(** [reshape_as_raster(arr)]: [np.transpose(arr, [2,0,1])], from
    (rows, columns, bands) to (bands, rows, columns). *)
Definition reshape_as_raster {A} `{Inhabited A} (arr : ndarray A) : ndarray A :=
  transpose arr (2, 0, 1).

Section Functions.
Variable L : Libraries.

(** [MNF(img, n_components)] *)
Definition MNF (img : ndarray R) (n_components : Z) : option (ndarray R) :=
  match mnf_apply L (ns_MNF L) img with
  | None => None
  | Some (mnf, _) => mnf_get_components L mnf n_components
  end.

(** [MNF_reduce_component_2_noise_and_invert(img, n_components)] *)
Definition MNF_reduce_component_2_noise_and_invert
    (img : ndarray R) (n_components : Z) : option (ndarray R) :=
  match mnf_apply L (ns_MNF L) img with
  | None => None
  | Some (mnf, tdata) =>
      match dn_denoise_bands L (slice_axis2 tdata 1 2) 15 2 with
      | None => None
      | Some smoothed =>
          match set_slice_axis2 tdata 1 2 smoothed with
          | None => None
          | Some tdata' =>
              match mnf_inverse_transform L mnf tdata' with
              | None => None
              | Some r => Some (slice_axis2 r 1 (n_components + 1))
              end
          end
      end
  end.

(** [explained_variance(img)] *)
Definition explained_variance (img : ndarray R) : IO unit :=
  band0 <- Run.call (index_axis2_0 img) ;;
  ratio <- Run.call (pca_explained_variance_ratio L (dim2 img) band0 (dim2 img)) ;;
  Run.emit (PrintArray (cumsum ratio)).

(** [saveMNF(img, inputRaster)]; [name] and [n_components] are the
    globals of the script that the function reads. *)
Definition saveMNF (name : string) (n_components : Z)
    (img : ndarray R) (inputRaster : DatasetReader) : IO unit :=
  let img2 := reshape_as_raster img in
  let output := ("MNF/" ++ Py.drop_last 4 name ++ "_MNF.tif")%string in
  dtype0 <- Run.call (head (ds_dtypes inputRaster)) ;;
  Run.emit (WriteRaster output
    (mk_Profile "GTiff" (fst (ds_shape inputRaster)) (snd (ds_shape inputRaster))
       n_components dtype0 (ds_crs inputRaster) (ds_transform inputRaster))
    img2).

(** The statements that every branch of the script runs on the array
    [r2] it has read, up to the call of the transform: the value of the
    variable [img] when they are done. *)
Definition prepare_image (preprop : bool) (r2 : ndarray R) : option (ndarray R) :=
  match
    (if preprop then
       match apply_along_axis BrigthnessNormalization r2 with
       | None => None
       | Some bn => Some (Some (reshape_as_image bn))
       end
     else Some None)
  with
  | None => None
  | Some img =>
      let img := reshape_as_image r2 in
      Some img
  end.

Definition usage : list string :=
  [ "ERROR!. Command should have the form:";
    "python MNF.py -f <Imput raster formar> -c <Number of components> -m <Method option>[optional] -v <Accumulated explained variance>[optional]";
    "";
    "Method options: 1 (default) regular MNF transformation";
    "                2  Reduce the second component noise and return the inverse transform";
    "                   Use Savitzky Golay methods";
    "";
    "example: python MNF_cmd.py -f tif -c 10" ]%string.

Section Main.
Variable env : Env.
Variable args : Args.

(** Body of the loop of the variance branch. *)
Definition variance_body (path : string) : IO unit :=
  let name := Py.basename path in
  Run.emit (OpenRaster path) ;;;
  r <- Run.call (rasterio_open env path) ;;
  r2 <- Run.call (ds_read r) ;;
  img <- Run.call (prepare_image (preprop args) r2) ;;
  Run.emit (Print ("Accumulated explained variances of " ++ name ++ "are:")%string) ;;;
  explained_variance img.

(** Body of the loops of the two transform branches. *)
Definition transform_body
    (transform : ndarray R -> Z -> option (ndarray R))
    (n_components : Z) (path : string) : IO unit :=
  let name := Py.basename path in
  Run.emit (OpenRaster path) ;;;
  r <- Run.call (rasterio_open env path) ;;
  r2 <- Run.call (ds_read r) ;;
  img <- Run.call (prepare_image (preprop args) r2) ;;
  Run.emit (Print ("Creating MNF components of " ++ name)%string) ;;;
  mnf <- Run.call (transform img n_components) ;;
  saveMNF name n_components mnf r.

(** The script, from the parsed arguments on. *)
Definition main : IO unit :=
  let n_components := method args in
  let imageList := glob env ("*." ++ format args)%string in
  (if negb (path_exists env "MNF") then Run.emit (Makedirs "MNF")
   else Run.ret tt) ;;;
  if variance args then
    Run.for_each imageList variance_body
  else if (method args =? 1)%Z then
    Run.for_each imageList (transform_body MNF n_components)
  else if (method args =? 2)%Z then
    Run.for_each imageList
      (transform_body MNF_reduce_component_2_noise_and_invert n_components)
  else
    Run.for_each usage (fun line => Run.emit (Print line)).
End Main.
End Functions.

(** Events that leave the files of the working directory as they are,
    other than creating the output directory. *)
Definition report_event (e : event) : Prop :=
  match e with
  | Makedirs path => path = "MNF"%string
  | OpenRaster _ | Print _ | PrintArray _ => True
  | WriteRaster _ _ _ => False
  end.


End MNF_cmd.

(** ** clip.py *)

Module Clip.
Import Numpy Rasterio.

(** A geometry of the vector file, as GeoJSON-like coordinates. *)
Definition Geometry : Type := list (list (R * R)).

(** A feature of the vector file: [feature["geometry"]] is all the script
    reads of it. *)
Record Feature : Type := mk_Feature { geometry : Geometry }.

(** Parsed command line. *)
Record Args : Type := mk_Args {
  inputRaster : string;
  inputshape : string
}.

(** The files and the masking routine the script depends on. *)
Record Env : Type := mk_Env {
  fiona_open : string -> option (list Feature);
  rasterio_open : string -> option DatasetReader;
  (* [rasterio.mask.mask(src, shapes, crop=...)] *)
  rasterio_mask : DatasetReader -> list Geometry -> bool ->
                  option (ndarray R * Affine)
}.

Inductive event : Type :=
| OpenVector (path : string)
| OpenRaster (path : string)
| Print (line : string)
| WriteRaster (path : string) (meta : gmap string meta_value) (img : ndarray R).

Abbreviation IO := (Run.M event).

(** [meta.update({"driver": ..., "height": ..., "width": ..., "transform": ...})] *)
Definition update_meta (meta : gmap string meta_value)
    (img : ndarray R) (transform : Affine) : gmap string meta_value :=
  <["transform" := MTransform transform]>
    (<["width" := MInt (Z.of_nat (dim2 img))]>
       (<["height" := MInt (Z.of_nat (dim1 img))]>
          (<["driver" := MStr "GTiff"]> meta))).

(** [raster[:-4] + "_mask.tif"] *)
Definition output_name (raster : string) : string :=
  (Py.drop_last 4 raster ++ "_mask.tif")%string.

(** The script, from the parsed arguments on. *)
Definition main (env : Env) (args : Args) : IO unit :=
  let raster := inputRaster args in
  let shp := inputshape args in
  Run.emit (OpenVector shp) ;;;
  shapefile <- Run.call (fiona_open env shp) ;;
  let features := map geometry shapefile in
  Run.emit (Print "Clipping raster...") ;;;
  Run.emit (OpenRaster raster) ;;;
  src <- Run.call (rasterio_open env raster) ;;
  masked <- Run.call (rasterio_mask env src features true) ;;
  let '(img, transform) := masked in
  let meta := ds_meta src in
  let meta := update_meta meta img transform in
  let output := output_name raster in
  Run.emit (WriteRaster output meta img) ;;;
  Run.emit (Print "Done!").

(** The file name the specification describes: the stem of the raster
    path, then [_mask.], then its extension, where the extension is what
    follows the last dot of the path. *)
Fixpoint split_ext_from (stem acc : string) (seen_dot : bool) (p : string)
    : string * string :=
  match p with
  | EmptyString => if seen_dot then (stem, acc) else (acc, EmptyString)
  | String c rest =>
      if Ascii.eqb c "."%char then
        split_ext_from (if seen_dot then stem ++ "." ++ acc else acc)%string
                       EmptyString true rest
      else split_ext_from stem (acc ++ String c EmptyString)%string seen_dot rest
  end.

Definition split_ext (p : string) : string * string :=
  split_ext_from EmptyString EmptyString false p.

Definition spec_output_name (raster : string) : string :=
  let '(stem, ext) := split_ext raster in
  (stem ++ "_mask." ++ ext)%string.

End Clip.

(** ** Sample inputs *)

Module Samples.
Import Numpy Rasterio.

(** Stand-ins for the numerical libraries: the transform and its inverse
    are the identity, the components are the leading bands, smoothing
    leaves the band as it is, and every component explains the same share
    of the variance. *)
Definition libraries : MNF_cmd.Libraries :=
  MNF_cmd.mk_Libraries (ndarray R) (mk_ndarray 0 0 0 [])
    (fun _ img => Some (img, img))
    (fun mnf n => Some (slice_axis2 mnf 0 n))
    (fun _ tdata => Some tdata)
    (fun bands _ _ => Some bands)
    (fun n _ _ => Some (repeat (1 / INR n)%R n)).

Definition geotransform : Affine := mk_Affine 30 0 500000 0 (-30) 4100000.

(** A raster of three bands, one row and two columns. *)
Definition pixels : ndarray R := mk_ndarray 3 1 2 [3; 0; 4; 0; 0; 5]%R.

Definition scene : DatasetReader :=
  mk_DatasetReader (1, 2) ["float64"; "float64"; "float64"]%string
    "EPSG:32633"%string geotransform
    (<["count" := MInt 3]> (<["driver" := MStr "ENVI"]>
       (<["width" := MInt 2]> (<["height" := MInt 1]> ∅))))
    (Some pixels).

(** A working directory that holds [scene.tif] and no [MNF] directory. *)
Definition env : MNF_cmd.Env :=
  MNF_cmd.mk_Env
    (fun pattern => if String.eqb pattern "*.tif" then ["scene.tif"%string] else [])
    (fun _ => false)
    (fun path => if String.eqb path "scene.tif" then Some scene else None).

(** One pixel of two bands. *)
Definition pixel_3_4 : ndarray R := mk_ndarray 2 1 1 [3; 4]%R.

(** An image of one pixel and three bands, band last. *)
Definition image_3_bands : ndarray R := mk_ndarray 1 1 3 [7; 8; 9]%R.

Definition cube : ndarray nat := mk_ndarray 2 1 3 [11; 12; 13; 21; 22; 23].

(** For clip.py: a vector file of one polygon, the raster under two
    names ([scene.img] is in a format other than GeoTIFF), and a mask that
    keeps one pixel. *)
Definition field : Clip.Feature :=
  Clip.mk_Feature [[(0, 0); (30, 0); (30, 30); (0, 0)]%R].

Definition clipped : ndarray R := mk_ndarray 3 1 1 [3; 4; 0]%R.

Definition clip_env : Clip.Env :=
  Clip.mk_Env
    (fun path => if String.eqb path "field.shp" then Some [field] else None)
    (fun path =>
       if String.eqb path "scene.tif" || String.eqb path "scene.img"
       then Some scene else None)
    (fun _ _ _ => Some (clipped, geotransform)).

End Samples.

(** ** Reading traces *)

Module Observe.
Import Numpy Rasterio.

(** The paths of the rasters a run of MNF_cmd.py wrote, in order. *)
Definition written_paths (t : list MNF_cmd.event) : list string :=
  flat_map (fun e => match e with
                     | MNF_cmd.WriteRaster path _ _ => [path]
                     | _ => []
                     end) t.


Definition creates_directory (e : MNF_cmd.event) : Prop :=
  match e with
  | MNF_cmd.Makedirs _ => True
  | _ => False
  end.

(** The name [saveMNF] gives the output of the input file [name]. *)
Definition saved_as (name : string) : string :=
  ("MNF/" ++ Py.drop_last 4 name ++ "_MNF.tif")%string.

(** What [saveMNF] may write for the discovered files [files]: a GeoTIFF
    under the name of one of them, with the size, data type, CRS and
    transform of that input. *)
Definition derived_from_input (env : MNF_cmd.Env) (files : list string)
    (e : MNF_cmd.event) : Prop :=
  match e with
  | MNF_cmd.WriteRaster out profile _ =>
      exists path r,
        In path files /\
        MNF_cmd.rasterio_open env path = Some r /\
        out = saved_as (Py.basename path) /\
        driver profile = "GTiff"%string /\
        height profile = fst (ds_shape r) /\
        width profile = snd (ds_shape r) /\
        head (ds_dtypes r) = Some (dtype profile) /\
        crs profile = ds_crs r /\
        transform profile = ds_transform r
  | _ => True
  end.

(** Events of clip.py that produce output: the written raster and the
    closing message. *)
Definition clip_output_event (e : Clip.event) : Prop :=
  match e with
  | Clip.WriteRaster _ _ _ => True
  | Clip.Print line => line = "Done!"%string
  | _ => False
  end.

(** [True] when the path has a slash. *)
Fixpoint has_slash (p : string) : bool :=
  match p with
  | EmptyString => false
  | String c rest => Ascii.eqb c "/"%char || has_slash rest
  end.

(** The array of a uint8 raster of two bands, one row and two columns: the
    pixels (16, 0) and (3, 4). *)
Definition pixels_uint8 : ndarray Z := mk_ndarray 2 1 2 [16; 3; 0; 4]%Z.

(** A directory in which [broken.tif] cannot be opened. *)
Definition env_unreadable : MNF_cmd.Env :=
  MNF_cmd.mk_Env
    (fun _ => ["scene.tif"; "broken.tif"; "later.tif"]%string)
    (fun _ => true)
    (fun path => if String.eqb path "scene.tif" then Some Samples.scene else None).


End Observe.

(** * Properties *)

Import Numpy Rasterio.

(** ** Row-major enumeration *)

Section Tab3.
Context {A : Type}.
Implicit Types (d : A) (f g : nat -> nat -> nat -> A).

Lemma length_flat_map_uniform (h : nat -> list A) (m n start : nat) :
  (forall x, length (h x) = m) ->
  length (flat_map h (seq start n)) = n * m.
Proof.
  intros Hm. revert start.
  induction n as [|n IH]; intros start; simpl; [reflexivity|].
  rewrite length_app, Hm, IH. reflexivity.
Qed.

Lemma nth_flat_map_uniform (h : nat -> list A) (m n start i q : nat) d :
  (forall x, length (h x) = m) -> i < n -> q < m ->
  nth (i * m + q) (flat_map h (seq start n)) d = nth q (h (start + i)) d.
Proof.
  intros Hm. revert start i.
  induction n as [|n IH]; intros start i Hi Hq; [lia|].
  simpl. destruct i as [|i].
  - simpl. rewrite app_nth1 by (rewrite Hm; lia).
    f_equal. f_equal. lia.
  - rewrite app_nth2 by (rewrite Hm; simpl; lia).
    rewrite Hm.
    replace (S i * m + q - m) with (i * m + q) by (simpl; lia).
    rewrite IH by lia. f_equal. f_equal. lia.
Qed.

Lemma length_tab3 n0 n1 n2 f :
  length (tab3 n0 n1 n2 f) = n0 * n1 * n2.
Proof.
  unfold tab3.
  rewrite (length_flat_map_uniform _ (n1 * n2)); [lia|].
  intros i. apply length_flat_map_uniform.
  intros j. rewrite length_map, length_seq. reflexivity.
Qed.

Lemma nth_tab3 n0 n1 n2 f i j k d :
  i < n0 -> j < n1 -> k < n2 ->
  nth ((i * n1 + j) * n2 + k) (tab3 n0 n1 n2 f) d = f i j k.
Proof.
  intros Hi Hj Hk. unfold tab3.
  replace ((i * n1 + j) * n2 + k) with (i * (n1 * n2) + (j * n2 + k)) by lia.
  rewrite (nth_flat_map_uniform _ (n1 * n2)); try assumption.
  - rewrite (nth_flat_map_uniform _ n2); try assumption.
    + rewrite (nth_indep _ d (f (0 + i) (0 + j) 0))
        by (rewrite length_map, length_seq; lia).
      rewrite (map_nth (fun k0 => f (0 + i) (0 + j) k0)), seq_nth by lia.
      reflexivity.
    + intros x. rewrite length_map, length_seq. reflexivity.
  - intros x. apply length_flat_map_uniform.
    intros y. rewrite length_map, length_seq. reflexivity.
  - nia.
Qed.

(** Every position of the buffer is the offset of one index triple. *)
Lemma offset_decompose n0 n1 n2 p :
  p < n0 * n1 * n2 ->
  exists i j k, i < n0 /\ j < n1 /\ k < n2 /\ p = (i * n1 + j) * n2 + k.
Proof.
  intros Hp.
  assert (Hn2 : n2 <> 0) by nia.
  assert (Hn1 : n1 <> 0) by nia.
  exists (p / n2 / n1), ((p / n2) mod n1), (p mod n2).
  pose proof (Nat.div_mod_eq p n2) as E1.
  pose proof (Nat.div_mod_eq (p / n2) n1) as E2.
  pose proof (Nat.mod_upper_bound p n2 Hn2) as B1.
  pose proof (Nat.mod_upper_bound (p / n2) n1 Hn1) as B2.
  assert (Hq : p / n2 < n0 * n1)
    by (apply Nat.Div0.div_lt_upper_bound; nia).
  assert (Hi : p / n2 / n1 < n0)
    by (apply Nat.Div0.div_lt_upper_bound; nia).
  repeat split; try assumption. nia.
Qed.

Lemma tab3_eq_of_nth n0 n1 n2 f (l : list A) d :
  length l = n0 * n1 * n2 ->
  (forall i j k, i < n0 -> j < n1 -> k < n2 ->
     nth ((i * n1 + j) * n2 + k) l d = f i j k) ->
  tab3 n0 n1 n2 f = l.
Proof.
  intros Hlen Hnth.
  apply (nth_ext _ _ d d).
  - rewrite length_tab3. symmetry. exact Hlen.
  - intros p Hp. rewrite length_tab3 in Hp.
    destruct (offset_decompose n0 n1 n2 p Hp) as (i & j & k & Hi & Hj & Hk & ->).
    rewrite nth_tab3 by assumption. symmetry. apply Hnth; assumption.
Qed.

Lemma tab3_ext n0 n1 n2 f g :
  (forall i j k, i < n0 -> j < n1 -> k < n2 -> f i j k = g i j k) ->
  tab3 n0 n1 n2 f = tab3 n0 n1 n2 g.
Proof.
  intros Hfg.
  destruct (tab3 n0 n1 n2 g) as [|d l] eqn:E.
  - apply length_zero_iff_nil. rewrite length_tab3.
    rewrite <- (length_tab3 n0 n1 n2 g), E. reflexivity.
  - rewrite <- E. apply (tab3_eq_of_nth _ _ _ _ _ d).
    + apply length_tab3.
    + intros i j k Hi Hj Hk. rewrite nth_tab3 by assumption.
      symmetry. apply Hfg; assumption.
Qed.
End Tab3.

(** ** Reading arrays built by enumeration *)

Section ArrayFacts.
Context {A : Type} `{Inhabited A}.

Lemma get_tab3 n0 n1 n2 (f : nat -> nat -> nat -> A) i j k :
  i < n0 -> j < n1 -> k < n2 ->
  get (mk_ndarray n0 n1 n2 (tab3 n0 n1 n2 f)) i j k = f i j k.
Proof. intros. unfold get, offset. simpl. apply nth_tab3; assumption. Qed.

Lemma well_formed_tab3 n0 n1 n2 (f : nat -> nat -> nat -> A) :
  well_formed (mk_ndarray n0 n1 n2 (tab3 n0 n1 n2 f)).
Proof. unfold well_formed. simpl. apply length_tab3. Qed.

Lemma get_reshape_as_image (arr : ndarray A) i j k :
  i < dim1 arr -> j < dim2 arr -> k < dim0 arr ->
  get (MNF_cmd.reshape_as_image arr) i j k = get arr k i j.
Proof.
  intros. unfold MNF_cmd.reshape_as_image, transpose. simpl.
  rewrite get_tab3 by assumption. reflexivity.
Qed.

Lemma get_reshape_as_raster (arr : ndarray A) i j k :
  i < dim2 arr -> j < dim0 arr -> k < dim1 arr ->
  get (MNF_cmd.reshape_as_raster arr) i j k = get arr j k i.
Proof.
  intros. unfold MNF_cmd.reshape_as_raster, transpose. simpl.
  rewrite get_tab3 by assumption. reflexivity.
Qed.

(** An array is determined by its shape and its elements. *)
Lemma ndarray_eq (a b : ndarray A) :
  well_formed a -> well_formed b -> shape a = shape b ->
  (forall i j k, i < dim0 a -> j < dim1 a -> k < dim2 a ->
     get a i j k = get b i j k) ->
  a = b.
Proof.
  destruct a as [a0 a1 a2 la], b as [b0 b1 b2 lb].
  unfold well_formed, shape, get, offset. simpl.
  intros Ha Hb [= -> -> ->] Hget. f_equal.
  apply (nth_ext _ _ inhabitant inhabitant); [congruence|].
  intros p Hp. rewrite Ha in Hp.
  destruct (offset_decompose _ _ _ p Hp) as (i & j & k & Hi & Hj & Hk & ->).
  apply Hget; assumption.
Qed.
End ArrayFacts.

(** ** The two reshapes *)

(** C4. For every array of shape (bands, rows, cols), [reshape_as_image]
    yields an array of shape (rows, cols, bands), and [reshape_as_raster]
    applied to that yields the original array: same shape, same values. *)
Theorem reshape_round_trip {A : Type} `{Inhabited A} (arr : ndarray A) :
  well_formed arr ->
  shape (MNF_cmd.reshape_as_image arr) = (dim1 arr, dim2 arr, dim0 arr) /\
  MNF_cmd.reshape_as_raster (MNF_cmd.reshape_as_image arr) = arr.
Proof.
  intros Hwf. split; [reflexivity|].
  apply ndarray_eq.
  - apply well_formed_tab3.
  - exact Hwf.
  - reflexivity.
  - intros i j k Hi Hj Hk.
    change (dim0 (MNF_cmd.reshape_as_raster (MNF_cmd.reshape_as_image arr)))
      with (dim0 arr) in Hi.
    change (dim1 (MNF_cmd.reshape_as_raster (MNF_cmd.reshape_as_image arr)))
      with (dim1 arr) in Hj.
    change (dim2 (MNF_cmd.reshape_as_raster (MNF_cmd.reshape_as_image arr)))
      with (dim2 arr) in Hk.
    rewrite get_reshape_as_raster by assumption.
    apply get_reshape_as_image; assumption.
Qed.

Lemma reshape_round_trip_witness :
  well_formed Samples.cube /\
  MNF_cmd.reshape_as_image Samples.cube = mk_ndarray 1 3 2 [11; 21; 12; 22; 13; 23] /\
  MNF_cmd.reshape_as_raster (MNF_cmd.reshape_as_image Samples.cube) = Samples.cube.
Proof.
  split; [reflexivity|]. split; [reflexivity|].
  apply (reshape_round_trip Samples.cube). reflexivity.
Defined.

(** ** Brightness normalization *)

Lemma l2norm_3_4 : MNF_cmd.l2norm [3; 4]%R = 5%R.
Proof.
  unfold MNF_cmd.l2norm, MNF_cmd.sum_of_squares. simpl.
  replace (3 * (3 * 1) + (4 * (4 * 1) + 0))%R with (5 * 5)%R by lra.
  apply sqrt_square. lra.
Qed.

Section DtypeFacts.
Import Dtype.
Local Open Scope Z_scope.





End DtypeFacts.

(** C3 (the code departs from the claim). The squares of
    [BrigthnessNormalization] are computed in the dtype of the raster and
    wrap around.  For the uint8 band vector (16, 0), of norm 16, they are
    (0, 0): the denominator is 0 and the function returns (inf, nan).  For
    the uint16 band vector (300, 400), of norm 500, the denominator is too
    small and the sum of the squares of the result exceeds 4: in neither
    case has the result norm 1. *)
Theorem BrigthnessNormalization_integer_overflow :
  Dtype.sum_of_squares [16; 0]%Z = 256%Z /\
  Dtype.np_power2 Dtype.uint8 [16; 0]%Z = [0; 0]%Z /\
  Dtype.BrigthnessNormalization Dtype.uint8 [16; 0]%Z
    = [PrimFloat.infinity; PrimFloat.nan] /\
  Dtype.sum_of_squares [300; 400]%Z = (500 * 500)%Z /\
  Dtype.np_power2 Dtype.uint16 [300; 400]%Z = [24464; 28928]%Z /\
  exists x y,
    Dtype.BrigthnessNormalization Dtype.uint16 [300; 400]%Z = [x; y] /\
    PrimFloat.ltb (Dtype.to_float64 4)
      (PrimFloat.add (PrimFloat.mul x x) (PrimFloat.mul y y)) = true.
Proof.
  split; [reflexivity|]. split; [reflexivity|].
  split; [vm_compute; reflexivity|].
  split; [reflexivity|]. split; [reflexivity|].
  eexists. eexists. split; vm_compute; reflexivity.
Qed.




(** ** Traces *)

Section RunFacts.
Context {E : Type}.

Lemma trace_bind {A B} (m : Run.M E A) (f : A -> Run.M E B) :
  Run.trace (Run.bind m f)
  = Run.trace m ++ match Run.returned m with
                   | Some x => Run.trace (f x)
                   | None => []
                   end.
Proof.
  destruct m as [t [x|]]; simpl.
  - destruct (f x) as [t' r]. reflexivity.
  - symmetry. apply app_nil_r.
Qed.

Lemma Forall_trace_bind {A B} (P : E -> Prop) (m : Run.M E A) (f : A -> Run.M E B) :
  Forall P (Run.trace m) ->
  (forall x, Run.returned m = Some x -> Forall P (Run.trace (f x))) ->
  Forall P (Run.trace (Run.bind m f)).
Proof.
  intros Hm Hf. rewrite trace_bind. apply Forall_app. split; [exact Hm|].
  destruct (Run.returned m) as [x|]; [apply Hf; reflexivity | constructor].
Qed.

Lemma Forall_trace_call {A} (P : E -> Prop) (r : option A) :
  Forall P (Run.trace (Run.call (E := E) r)).
Proof. constructor. Qed.

Lemma Forall_trace_emit (P : E -> Prop) (e : E) :
  P e -> Forall P (Run.trace (Run.emit e)).
Proof. intros He. repeat constructor. exact He. Qed.

Lemma Forall_trace_for_each {A} (P : E -> Prop) (xs : list A)
    (body : A -> Run.M E unit) :
  (forall x, In x xs -> Forall P (Run.trace (body x))) ->
  Forall P (Run.trace (Run.for_each xs body)).
Proof.
  induction xs as [|x xs IH]; intros Hb; simpl; [constructor|].
  apply Forall_trace_bind.
  - apply Hb. left. reflexivity.
  - intros _ _. apply IH. intros y Hy. apply Hb. right. exact Hy.
Qed.

(** A loop whose body only emits one event per element. *)
Lemma for_each_emit {A} (xs : list A) (ev : A -> E) :
  Run.for_each xs (fun x => Run.emit (ev x)) = (map ev xs, Some tt).
Proof.
  induction xs as [|x xs IH]; simpl; [reflexivity|].
  rewrite IH. reflexivity.
Qed.
End RunFacts.

(** ** The MNF script *)

Section MainFacts.
Import MNF_cmd.
Variable L : Libraries.
Variable env : Env.

Lemma report_variance_body args path :
  Forall MNF_cmd.report_event (Run.trace (variance_body L env args path)).
Proof.
  unfold variance_body, explained_variance.
  repeat (first
    [ apply Forall_trace_bind; [| intros ? _]
    | apply Forall_trace_emit; exact I
    | apply Forall_trace_call ]).
Qed.

Lemma prepare_image_value p r2 img :
  prepare_image p r2 = Some img -> img = reshape_as_image r2.
Proof.
  unfold prepare_image.
  destruct p; [destruct (apply_along_axis _ r2)|]; congruence.
Qed.

Lemma prepare_image_preprop r2 :
  dim1 r2 * dim2 r2 <> 0 ->
  prepare_image true r2 = Some (reshape_as_image r2).
Proof.
  intros Hn. unfold prepare_image, apply_along_axis.
  destruct (Nat.eqb_spec (dim1 r2 * dim2 r2) 0); [contradiction|reflexivity].
Qed.
End MainFacts.

Section BindFacts.
Context {E : Type}.

Lemma bind_call_some {A B} (x : A) (f : A -> Run.M E B) :
  Run.bind (Run.call (Some x)) f = f x.
Proof. unfold Run.bind, Run.call. destruct (f x). reflexivity. Qed.

Lemma bind_call_none {A B} (f : A -> Run.M E B) :
  Run.bind (Run.call None) f = ([], None).
Proof. reflexivity. Qed.

Lemma bind_emit {B} (e : E) (f : unit -> Run.M E B) :
  Run.bind (Run.emit e) f = (e :: Run.trace (f tt), Run.returned (f tt)).
Proof. unfold Run.bind, Run.emit. destruct (f tt). reflexivity. Qed.

Lemma bind_ret {A B} (x : A) (f : A -> Run.M E B) :
  Run.bind (Run.ret x) f = f x.
Proof. unfold Run.bind, Run.ret. destruct (f x). reflexivity. Qed.
End BindFacts.

Section BodyFacts.
Import MNF_cmd.
Variable L : Libraries.
Variable env : Env.

Lemma transform_body_run args transform n path r r2 cube dtype0 :
  rasterio_open env path = Some r ->
  ds_read r = Some r2 ->
  (preprop args = true -> dim1 r2 * dim2 r2 <> 0) ->
  transform (reshape_as_image r2) n = Some cube ->
  head (ds_dtypes r) = Some dtype0 ->
  transform_body env args transform n path
  = ([OpenRaster path;
      Print ("Creating MNF components of " ++ Py.basename path)%string;
      WriteRaster ("MNF/" ++ Py.drop_last 4 (Py.basename path) ++ "_MNF.tif")%string
        (mk_Profile "GTiff" (fst (ds_shape r)) (snd (ds_shape r)) n dtype0
           (ds_crs r) (ds_transform r))
        (reshape_as_raster cube)],
     Some tt).
Proof.
  intros Hopen Hread Hpre Htr Hdt.
  assert (Himg : prepare_image (preprop args) r2 = Some (reshape_as_image r2)).
  { destruct (preprop args) eqn:Hp.
    - apply prepare_image_preprop. apply Hpre. reflexivity.
    - reflexivity. }
  unfold transform_body, saveMNF.
  rewrite !bind_emit, Hopen, bind_call_some, Hread, bind_call_some.
  rewrite Himg, bind_call_some, bind_emit, Htr, bind_call_some.
  rewrite Hdt, bind_call_some. reflexivity.
Qed.

Lemma count_transform_body args transform n path :
  Forall (fun e => match e with
                   | WriteRaster _ profile _ => count profile = n
                   | _ => True
                   end)
         (Run.trace (transform_body env args transform n path)).
Proof.
  unfold transform_body, saveMNF.
  repeat (first
    [ apply Forall_trace_bind; [| intros ? _]
    | apply Forall_trace_emit; simpl; first [exact I | reflexivity]
    | apply Forall_trace_call ]).
Qed.
End BodyFacts.

(** C7. With [-v] the transform-and-write path is never taken: the run is
    the creation of the output directory, when it is missing, followed by
    the variance loop over the discovered files, which does not call
    [saveMNF]; no event of the run writes a raster.  Every event is the
    creation of the output directory, the opening of an input raster for
    reading, or a printed line or array of the variance report. *)
Theorem variance_mode_writes_nothing (L : MNF_cmd.Libraries) (env : MNF_cmd.Env)
    (args : MNF_cmd.Args) :
  MNF_cmd.variance args = true ->
  MNF_cmd.main L env args
  = Run.bind (if negb (MNF_cmd.path_exists env "MNF")
              then Run.emit (MNF_cmd.Makedirs "MNF") else Run.ret tt)
      (fun _ => Run.for_each
                  (MNF_cmd.glob env ("*." ++ MNF_cmd.format args)%string)
                  (MNF_cmd.variance_body L env args)) /\
  Forall MNF_cmd.report_event (Run.trace (MNF_cmd.main L env args)).
Proof.
  intros Hv. unfold MNF_cmd.main. rewrite Hv.
  split; [reflexivity|].
  apply Forall_trace_bind.
  - destruct (negb (MNF_cmd.path_exists env "MNF")).
    + apply Forall_trace_emit. reflexivity.
    + constructor.
  - intros _ _. apply Forall_trace_for_each.
    intros path _. apply report_variance_body.
Qed.

Lemma variance_mode_writes_nothing_witness :
  let args := MNF_cmd.mk_Args "tif" 3 1 true true in
  MNF_cmd.main Samples.libraries Samples.env args
  = ([MNF_cmd.Makedirs "MNF";
      MNF_cmd.OpenRaster "scene.tif";
      MNF_cmd.Print "Accumulated explained variances of scene.tifare:";
      MNF_cmd.PrintArray (cumsum (repeat (1 / INR 3)%R 3))],
     Some tt) /\
  Forall MNF_cmd.report_event (Run.trace (MNF_cmd.main Samples.libraries Samples.env args)).
Proof.
  intros args. split; [reflexivity|].
  apply (proj2 (variance_mode_writes_nothing Samples.libraries Samples.env args
                  eq_refl)).
Defined.

(** C10. Two runs with [-v] that agree on everything but the value of
    [-m] behave the same: same events in the same order, same outcome. *)
Theorem variance_mode_ignores_method (L : MNF_cmd.Libraries) (env : MNF_cmd.Env)
    (args1 args2 : MNF_cmd.Args) :
  MNF_cmd.variance args1 = true ->
  MNF_cmd.variance args2 = true ->
  MNF_cmd.format args1 = MNF_cmd.format args2 ->
  MNF_cmd.components args1 = MNF_cmd.components args2 ->
  MNF_cmd.preprop args1 = MNF_cmd.preprop args2 ->
  MNF_cmd.main L env args1 = MNF_cmd.main L env args2.
Proof.
  destruct args1 as [f1 c1 m1 p1 v1], args2 as [f2 c2 m2 p2 v2]. simpl.
  intros -> -> -> -> ->. reflexivity.
Qed.

Lemma variance_mode_ignores_method_witness :
  MNF_cmd.main Samples.libraries Samples.env (MNF_cmd.mk_Args "tif" 3 1 false true)
  = MNF_cmd.main Samples.libraries Samples.env (MNF_cmd.mk_Args "tif" 3 7 false true).
Proof.
  apply (variance_mode_ignores_method Samples.libraries Samples.env
           (MNF_cmd.mk_Args "tif" 3 1 false true)
           (MNF_cmd.mk_Args "tif" 3 7 false true)); reflexivity.
Defined.



(** Whatever the directory holds, every raster a run writes has as many
    bands as the value of [-m]. *)
Lemma written_count_all_files (L : MNF_cmd.Libraries) (env : MNF_cmd.Env)
    (args : MNF_cmd.Args) :
  Forall (fun e => match e with
                   | MNF_cmd.WriteRaster _ profile _ => count profile = MNF_cmd.method args
                   | _ => True
                   end)
         (Run.trace (MNF_cmd.main L env args)).
Proof.
  unfold MNF_cmd.main.
  apply Forall_trace_bind.
  { destruct (negb _); [apply Forall_trace_emit; exact I | constructor]. }
  intros _ _.
  destruct (MNF_cmd.variance args).
  { apply Forall_trace_for_each. intros path _.
    eapply Forall_impl; [apply report_variance_body|].
    intros [] He; simpl in *; first [exact I | contradiction]. }
  destruct (_ =? 1)%Z; [|destruct (_ =? 2)%Z].
  - apply Forall_trace_for_each. intros path _. apply count_transform_body.
  - apply Forall_trace_for_each. intros path _. apply count_transform_body.
  - rewrite for_each_emit. unfold Run.trace. simpl fst.
    repeat constructor.
Qed.

(** C1 (the code departs from the claim). For a run without [-v], with
    method 1 or 2, on a directory holding one readable raster for which the
    transform succeeds: the raster written has the height, width, CRS and
    affine transform of the input, and its band count is the value of
    [-m], not the value of [-c]. *)
Theorem written_band_count_is_method (L : MNF_cmd.Libraries) (env : MNF_cmd.Env)
    (args : MNF_cmd.Args) (path : string) (r : DatasetReader)
    (r2 cube : ndarray R) (dtype0 : string) :
  MNF_cmd.variance args = false ->
  MNF_cmd.method args = 1%Z \/ MNF_cmd.method args = 2%Z ->
  MNF_cmd.glob env ("*." ++ MNF_cmd.format args)%string = [path] ->
  MNF_cmd.rasterio_open env path = Some r ->
  ds_read r = Some r2 ->
  (MNF_cmd.preprop args = true -> dim1 r2 * dim2 r2 <> 0) ->
  (if (MNF_cmd.method args =? 1)%Z then MNF_cmd.MNF L
   else MNF_cmd.MNF_reduce_component_2_noise_and_invert L)
    (MNF_cmd.reshape_as_image r2) (MNF_cmd.method args) = Some cube ->
  head (ds_dtypes r) = Some dtype0 ->
  MNF_cmd.main L env args
  = ((if MNF_cmd.path_exists env "MNF" then [] else [MNF_cmd.Makedirs "MNF"])
       ++ [MNF_cmd.OpenRaster path;
           MNF_cmd.Print ("Creating MNF components of " ++ Py.basename path)%string;
           MNF_cmd.WriteRaster
             ("MNF/" ++ Py.drop_last 4 (Py.basename path) ++ "_MNF.tif")%string
             (mk_Profile "GTiff" (fst (ds_shape r)) (snd (ds_shape r))
                (MNF_cmd.method args) dtype0 (ds_crs r) (ds_transform r))
             (MNF_cmd.reshape_as_raster cube)],
     Some tt).
Proof.
  intros Hv Hm Hglob Hopen Hread Hpre Htr Hdt.
  unfold MNF_cmd.main. rewrite Hv, Hglob.
  destruct Hm as [Hm|Hm]; rewrite Hm in *; simpl Z.eqb in *; cbv iota in *;
    simpl Run.for_each;
    rewrite (transform_body_run env args _ _ path r r2 cube dtype0)
      by assumption;
    destruct (MNF_cmd.path_exists env "MNF"); reflexivity.
Qed.

Lemma written_band_count_is_method_witness :
  let args := MNF_cmd.mk_Args "tif" 3 1 false false in
  MNF_cmd.components args = 3%Z /\
  dim0 Samples.pixels = 3 /\
  MNF_cmd.main Samples.libraries Samples.env args
  = ([MNF_cmd.Makedirs "MNF";
      MNF_cmd.OpenRaster "scene.tif";
      MNF_cmd.Print "Creating MNF components of scene.tif";
      MNF_cmd.WriteRaster "MNF/scene_MNF.tif"
        (mk_Profile "GTiff" 1 2 1 "float64" "EPSG:32633" Samples.geotransform)
        (mk_ndarray 1 1 2 [3; 0]%R)],
     Some tt).
Proof.
  intros args. split; [reflexivity|]. split; [reflexivity|].
  apply (written_band_count_is_method Samples.libraries Samples.env args
           "scene.tif" Samples.scene Samples.pixels
           (mk_ndarray 1 2 1 [3; 0]%R) "float64");
    try reflexivity.
  - left. reflexivity.
  - intros _. simpl. lia.
Defined.

(** C2 (the code departs from the claim). With [-p] the script computes
    the brightness-normalized array and then overwrites the variable that
    held it: the array handed to the transform is the array read from the
    file, reshaped, the same as without [-p]. *)
Theorem preprop_passes_raw_image (r2 : ndarray R) :
  dim1 r2 * dim2 r2 <> 0 ->
  MNF_cmd.prepare_image true r2 = Some (MNF_cmd.reshape_as_image r2) /\
  MNF_cmd.prepare_image true r2 = MNF_cmd.prepare_image false r2.
Proof.
  intros Hn. rewrite prepare_image_preprop by exact Hn.
  split; reflexivity.
Qed.

Lemma preprop_passes_raw_image_witness :
  apply_along_axis MNF_cmd.BrigthnessNormalization Samples.pixel_3_4
    = Some (mk_ndarray 2 1 1 (MNF_cmd.BrigthnessNormalization [3; 4]%R)) /\
  MNF_cmd.prepare_image true Samples.pixel_3_4
    = Some (mk_ndarray 1 1 2 [3; 4]%R) /\
  MNF_cmd.l2norm [3; 4]%R = 5%R /\
  MNF_cmd.reshape_as_image (mk_ndarray 2 1 1 (MNF_cmd.BrigthnessNormalization [3; 4]%R))
    <> mk_ndarray 1 1 2 [3; 4]%R.
Proof.
  split; [reflexivity|]. split.
  - assert (Hn : dim1 Samples.pixel_3_4 * dim2 Samples.pixel_3_4 <> 0)
      by (simpl; lia).
    exact (proj1 (preprop_passes_raw_image Samples.pixel_3_4 Hn)).
  - split; [exact l2norm_3_4|].
    intros Heq. apply (f_equal (fun a => get a 0 0 0)) in Heq.
    change (3 / MNF_cmd.l2norm [3; 4] = 3)%R in Heq.
    rewrite l2norm_3_4 in Heq. lra.
Defined.

(** ** Slices of the band axis *)

Section SliceFacts.
Context {A : Type} `{Inhabited A}.

Lemma slice_bound_nonneg len i :
  (0 <= i)%Z -> slice_bound len i = Nat.min (Z.to_nat i) len.
Proof.
  intros Hi. unfold slice_bound.
  destruct (Z.ltb_spec i 0); lia.
Qed.

Lemma shape_slice_axis2 (a : ndarray A) lo hi :
  shape (slice_axis2 a lo hi)
  = (dim0 a, dim1 a, slice_bound (dim2 a) hi - slice_bound (dim2 a) lo).
Proof. reflexivity. Qed.

Lemma get_slice_axis2 (a : ndarray A) lo hi i j k :
  i < dim0 a -> j < dim1 a ->
  k < slice_bound (dim2 a) hi - slice_bound (dim2 a) lo ->
  get (slice_axis2 a lo hi) i j k = get a i j (slice_bound (dim2 a) lo + k).
Proof. intros. unfold slice_axis2. rewrite get_tab3 by assumption. reflexivity. Qed.

Lemma set_slice_axis2_some (a v a' : ndarray A) lo hi :
  set_slice_axis2 a lo hi v = Some a' ->
  shape v = (dim0 a, dim1 a, slice_bound (dim2 a) hi - slice_bound (dim2 a) lo) /\
  shape a' = shape a /\
  forall i j k, i < dim0 a -> j < dim1 a -> k < dim2 a ->
    get a' i j k
    = if (slice_bound (dim2 a) lo <=? k) && (k <? slice_bound (dim2 a) hi)
      then get v i j (k - slice_bound (dim2 a) lo)
      else get a i j k.
Proof.
  unfold set_slice_axis2. case_decide as Hs; [|discriminate].
  intros [= <-]. split; [exact Hs|]. split; [reflexivity|].
  intros i j k Hi Hj Hk. rewrite get_tab3 by assumption. reflexivity.
Qed.

(** The assignment [a[:, :, 1:2] = v] replaces band 1 and nothing else. *)
Lemma set_band_1 (a v a' : ndarray A) i j k :
  set_slice_axis2 a 1 2 v = Some a' ->
  i < dim0 a -> j < dim1 a -> k < dim2 a ->
  get a' i j k = if k =? 1 then get v i j 0 else get a i j k.
Proof.
  intros Hset Hi Hj Hk.
  destruct (set_slice_axis2_some _ _ _ _ _ Hset) as (_ & _ & Hget).
  rewrite Hget by assumption.
  rewrite !slice_bound_nonneg by lia.
  change (Z.to_nat 1) with 1. change (Z.to_nat 2) with 2.
  destruct (Nat.eqb_spec k 1) as [->|Hk1].
  - replace (Nat.min 1 (dim2 a)) with 1 by lia.
    replace (Nat.min 2 (dim2 a)) with 2 by lia. reflexivity.
  - destruct (Nat.leb_spec (Nat.min 1 (dim2 a)) k);
      destruct (Nat.ltb_spec k (Nat.min 2 (dim2 a))); simpl;
      try reflexivity; lia.
Qed.

(** [r[:, :, 1:n+1]] for [n >= 1]: band 0 is skipped and the bands that
    follow are kept, as many as [n] if the array has them. *)
Lemma skip_first_band (r : ndarray A) (n : Z) :
  (1 <= n)%Z ->
  shape (slice_axis2 r 1 (n + 1))
    = (dim0 r, dim1 r, Nat.min (Z.to_nat n) (dim2 r - 1)) /\
  forall i j k, i < dim0 r -> j < dim1 r ->
    k < Nat.min (Z.to_nat n) (dim2 r - 1) ->
    get (slice_axis2 r 1 (n + 1)) i j k = get r i j (k + 1).
Proof.
  intros Hn.
  assert (Hlen : slice_bound (dim2 r) (n + 1) - slice_bound (dim2 r) 1
                 = Nat.min (Z.to_nat n) (dim2 r - 1))
    by (rewrite !slice_bound_nonneg by lia; lia).
  split.
  - rewrite shape_slice_axis2, Hlen. reflexivity.
  - intros i j k Hi Hj Hk.
    rewrite get_slice_axis2 by (try assumption; rewrite Hlen; exact Hk).
    rewrite slice_bound_nonneg by lia. f_equal. lia.
Qed.
End SliceFacts.

(** C5, as the code has it. For [n_components >= 1], whenever
    [MNF_reduce_component_2_noise_and_invert] returns, it has applied the
    transform, smoothed the slice that holds band 1 of the transformed cube
    with window length 15 and degree 2, put the result in the place of
    band 1 with every other band unchanged, applied the inverse transform
    to that cube, and returned the bands of the inverse result from band 1
    on: [n_components] of them when the inverse result has more than
    [n_components] bands, otherwise all the bands after band 0. *)
Theorem MNF_reduce_component_2_noise_and_invert_spec (L : MNF_cmd.Libraries)
    (img : ndarray R) (n_components : Z) (r2 : ndarray R) :
  (1 <= n_components)%Z ->
  MNF_cmd.MNF_reduce_component_2_noise_and_invert L img n_components = Some r2 ->
  exists mnf tdata smoothed tdata' r,
    MNF_cmd.mnf_apply L (MNF_cmd.ns_MNF L) img = Some (mnf, tdata) /\
    MNF_cmd.dn_denoise_bands L (slice_axis2 tdata 1 2) 15 2 = Some smoothed /\
    (forall i j, i < dim0 tdata -> j < dim1 tdata -> 1 < dim2 tdata ->
       shape (slice_axis2 tdata 1 2) = (dim0 tdata, dim1 tdata, 1) /\
       get (slice_axis2 tdata 1 2) i j 0 = get tdata i j 1) /\
    shape tdata' = shape tdata /\
    (forall i j k, i < dim0 tdata -> j < dim1 tdata -> k < dim2 tdata ->
       get tdata' i j k = if k =? 1 then get smoothed i j 0 else get tdata i j k) /\
    MNF_cmd.mnf_inverse_transform L mnf tdata' = Some r /\
    shape r2 = (dim0 r, dim1 r, Nat.min (Z.to_nat n_components) (dim2 r - 1)) /\
    (forall i j k, i < dim0 r -> j < dim1 r ->
       k < Nat.min (Z.to_nat n_components) (dim2 r - 1) ->
       get r2 i j k = get r i j (k + 1)).
Proof.
  intros Hn. unfold MNF_cmd.MNF_reduce_component_2_noise_and_invert.
  destruct (MNF_cmd.mnf_apply L (MNF_cmd.ns_MNF L) img) as [[mnf tdata]|] eqn:Happly;
    [|discriminate].
  destruct (MNF_cmd.dn_denoise_bands L (slice_axis2 tdata 1 2) 15 2)
    as [smoothed|] eqn:Hdn; [|discriminate].
  destruct (set_slice_axis2 tdata 1 2 smoothed) as [tdata'|] eqn:Hset;
    [|discriminate].
  destruct (MNF_cmd.mnf_inverse_transform L mnf tdata') as [r|] eqn:Hinv;
    [|discriminate].
  intros [= <-].
  exists mnf, tdata, smoothed, tdata', r.
  split; [reflexivity|]. split; [exact Hdn|]. split.
  { intros i j Hi Hj Hk.
    assert (Hlen : slice_bound (dim2 tdata) 2 - slice_bound (dim2 tdata) 1 = 1)
      by (rewrite !slice_bound_nonneg by lia; lia).
    split.
    - rewrite shape_slice_axis2, Hlen. reflexivity.
    - rewrite get_slice_axis2 by (try assumption; lia).
      rewrite slice_bound_nonneg by lia. f_equal. lia. }
  split; [apply (set_slice_axis2_some _ _ _ _ _ Hset)|].
  split; [intros i j k; apply set_band_1; exact Hset|].
  split; [exact Hinv|].
  apply skip_first_band. exact Hn.
Qed.

Lemma MNF_reduce_component_2_noise_and_invert_spec_witness :
  MNF_cmd.MNF_reduce_component_2_noise_and_invert
    Samples.libraries Samples.image_3_bands 1
    = Some (mk_ndarray 1 1 1 [8]%R) /\
  exists r : ndarray R,
    shape (mk_ndarray 1 1 1 [8]%R) = (dim0 r, dim1 r, Nat.min 1 (dim2 r - 1)) /\
    forall i j k, i < dim0 r -> j < dim1 r -> k < Nat.min 1 (dim2 r - 1) ->
      get (mk_ndarray 1 1 1 [8]%R) i j k = get r i j (k + 1).
Proof.
  assert (Hrun : MNF_cmd.MNF_reduce_component_2_noise_and_invert
                   Samples.libraries Samples.image_3_bands 1
                 = Some (mk_ndarray 1 1 1 [8]%R)) by reflexivity.
  split; [exact Hrun|].
  destruct (MNF_reduce_component_2_noise_and_invert_spec Samples.libraries
              Samples.image_3_bands 1 (mk_ndarray 1 1 1 [8]%R)
              ltac:(lia) Hrun)
    as (mnf & tdata & smoothed & tdata' & r & _ & _ & _ & _ & _ & _ & Hshape & Hget).
  exists r. split; [exact Hshape | exact Hget].
Defined.

(** C5, as the claim has it: the function would return [n_components]
    bands for every image and every [n_components >= 1].  On an image of
    three bands and [n_components = 3] it returns the two bands that
    follow band 0. *)
Lemma MNF_reduce_band_count_counterexample :
  MNF_cmd.MNF_reduce_component_2_noise_and_invert
    Samples.libraries Samples.image_3_bands 3
    = Some (mk_ndarray 1 1 2 [8; 9]%R) /\
  ~ (forall (L : MNF_cmd.Libraries) (img : ndarray R) (n_components : Z)
            (r2 : ndarray R),
       (1 <= n_components)%Z ->
       MNF_cmd.MNF_reduce_component_2_noise_and_invert L img n_components = Some r2 ->
       dim2 r2 = Z.to_nat n_components).
Proof.
  assert (Hrun : MNF_cmd.MNF_reduce_component_2_noise_and_invert
                   Samples.libraries Samples.image_3_bands 3
                 = Some (mk_ndarray 1 1 2 [8; 9]%R)) by reflexivity.
  split; [exact Hrun|].
  intros Hclaim.
  specialize (Hclaim Samples.libraries Samples.image_3_bands 3%Z _ ltac:(lia) Hrun).
  discriminate Hclaim.
Qed.

(** ** The clip script *)

Section StringFacts.
Local Open Scope string_scope.

Lemma string_length_app (a b : string) :
  String.length (a ++ b) = String.length a + String.length b.
Proof.
  induction a as [|c a IH]; [reflexivity|].
  change (String c a ++ b) with (String c (a ++ b)).
  simpl. rewrite IH. reflexivity.
Qed.

Lemma substring_prefix (a b : string) :
  substring 0 (String.length a) (a ++ b) = a.
Proof.
  induction a as [|c a IH].
  - destruct b; reflexivity.
  - change (String c a ++ b) with (String c (a ++ b)).
    simpl. rewrite IH. reflexivity.
Qed.

Lemma drop_last_suffix (a b : string) :
  Py.drop_last (String.length b) (a ++ b) = a.
Proof.
  unfold Py.drop_last. rewrite string_length_app.
  replace (String.length a + String.length b - String.length b)
    with (String.length a) by lia.
  apply substring_prefix.
Qed.

Lemma output_name_three_letter_extension (stem ext : string) :
  String.length ext = 3 ->
  Clip.output_name (stem ++ "." ++ ext) = stem ++ "_mask.tif".
Proof.
  intros Hext. unfold Clip.output_name.
  replace 4 with (String.length ("." ++ ext))
    by (change ("." ++ ext) with (String "." ext); simpl; lia).
  rewrite drop_last_suffix. reflexivity.
Qed.
End StringFacts.

Section ClipFacts.
Import Clip.

Lemma update_meta_other meta img transform (key : string) :
  key <> "driver"%string -> key <> "height"%string ->
  key <> "width"%string -> key <> "transform"%string ->
  update_meta meta img transform !! key = meta !! key.
Proof.
  intros Hd Hh Hw Ht. unfold update_meta.
  rewrite !lookup_insert_ne by congruence. reflexivity.
Qed.

Lemma update_meta_set meta img transform :
  update_meta meta img transform !! "driver"%string = Some (MStr "GTiff") /\
  update_meta meta img transform !! "height"%string
    = Some (MInt (Z.of_nat (dim1 img))) /\
  update_meta meta img transform !! "width"%string
    = Some (MInt (Z.of_nat (dim2 img))) /\
  update_meta meta img transform !! "transform"%string
    = Some (MTransform transform).
Proof.
  unfold update_meta. repeat split.
  - rewrite !lookup_insert_ne by discriminate. apply lookup_insert_eq.
  - rewrite !lookup_insert_ne by discriminate. apply lookup_insert_eq.
  - rewrite !lookup_insert_ne by discriminate. apply lookup_insert_eq.
  - apply lookup_insert_eq.
Qed.

Lemma main_returns env args :
  Run.returned (main env args) = Some tt ->
  exists shapefile src img transform,
    fiona_open env (inputshape args) = Some shapefile /\
    rasterio_open env (inputRaster args) = Some src /\
    rasterio_mask env src (map geometry shapefile) true = Some (img, transform) /\
    Run.trace (main env args)
    = [OpenVector (inputshape args);
       Print "Clipping raster...";
       OpenRaster (inputRaster args);
       WriteRaster (output_name (inputRaster args))
         (update_meta (ds_meta src) img transform) img;
       Print "Done!"].
Proof.
  unfold main. rewrite bind_emit.
  destruct (fiona_open env (inputshape args)) as [shapefile|] eqn:Hshp;
    [rewrite bind_call_some | discriminate].
  rewrite !bind_emit.
  destruct (rasterio_open env (inputRaster args)) as [src|] eqn:Hsrc;
    [rewrite bind_call_some | discriminate].
  destruct (rasterio_mask env src (map geometry shapefile) true)
    as [[img transform]|] eqn:Hmask; [rewrite bind_call_some | discriminate].
  intros _. exists shapefile, src, img, transform.
  repeat split; first [reflexivity | assumption].
Qed.
End ClipFacts.

(** C8, as the code has it. A run of the clip script that ends normally
    writes one raster.  Its metadata are those of the input raster with the
    keys driver, height, width and transform set to GTiff, the rows and
    columns of the cropped array and the transform of the crop; every other
    key (CRS, dtype, band count, ...) is as in the input.  For an input
    path made of a stem, a dot and an extension of three characters, its
    name is the stem followed by [_mask.tif]: the output is a GeoTIFF named
    [.tif] whatever the extension of the input is. *)
Theorem clip_output_metadata_and_name (env : Clip.Env) (args : Clip.Args) :
  Run.returned (Clip.main env args) = Some tt ->
  exists src img transform meta output,
    Clip.rasterio_open env (Clip.inputRaster args) = Some src /\
    Run.trace (Clip.main env args)
    = [Clip.OpenVector (Clip.inputshape args);
       Clip.Print "Clipping raster...";
       Clip.OpenRaster (Clip.inputRaster args);
       Clip.WriteRaster output meta img;
       Clip.Print "Done!"] /\
    meta !! "driver"%string = Some (MStr "GTiff") /\
    meta !! "height"%string = Some (MInt (Z.of_nat (dim1 img))) /\
    meta !! "width"%string = Some (MInt (Z.of_nat (dim2 img))) /\
    meta !! "transform"%string = Some (MTransform transform) /\
    (forall key : string,
       key <> "driver"%string -> key <> "height"%string ->
       key <> "width"%string -> key <> "transform"%string ->
       meta !! key = ds_meta src !! key) /\
    (forall stem ext : string,
       Clip.inputRaster args = (stem ++ "." ++ ext)%string ->
       String.length ext = 3 ->
       output = (stem ++ "_mask.tif")%string).
Proof.
  intros Hret.
  destruct (main_returns env args Hret)
    as (shapefile & src & img & transform & _ & Hsrc & _ & Htrace).
  exists src, img, transform, (Clip.update_meta (ds_meta src) img transform),
    (Clip.output_name (Clip.inputRaster args)).
  destruct (update_meta_set (ds_meta src) img transform) as (Hd & Hh & Hw & Ht).
  split; [exact Hsrc|]. split; [exact Htrace|].
  split; [exact Hd|]. split; [exact Hh|]. split; [exact Hw|]. split; [exact Ht|].
  split; [intros key; apply update_meta_other|].
  intros stem ext -> Hext. apply output_name_three_letter_extension, Hext.
Qed.

Lemma clip_output_metadata_and_name_witness :
  let args := Clip.mk_Args "scene.img" "field.shp" in
  Run.returned (Clip.main Samples.clip_env args) = Some tt /\
  exists src img transform meta,
    Clip.rasterio_open Samples.clip_env "scene.img" = Some src /\
    Run.trace (Clip.main Samples.clip_env args)
    = [Clip.OpenVector "field.shp";
       Clip.Print "Clipping raster...";
       Clip.OpenRaster "scene.img";
       Clip.WriteRaster "scene_mask.tif" meta img;
       Clip.Print "Done!"] /\
    meta !! "driver"%string = Some (MStr "GTiff") /\
    meta !! "transform"%string = Some (MTransform transform) /\
    meta !! "count"%string = ds_meta src !! "count"%string.
Proof.
  intros args.
  assert (Hret : Run.returned (Clip.main Samples.clip_env args) = Some tt)
    by reflexivity.
  split; [exact Hret|].
  destruct (clip_output_metadata_and_name Samples.clip_env args Hret)
    as (src & img & transform & meta & output & Hsrc & Htrace
        & Hd & _ & _ & Ht & Hother & Hname).
  exists src, img, transform, meta.
  split; [exact Hsrc|]. split.
  - rewrite Htrace.
    rewrite (Hname "scene"%string "img"%string eq_refl eq_refl). reflexivity.
  - split; [exact Hd|]. split; [exact Ht|]. apply Hother; discriminate.
Defined.

(** C8, as the claim has it: the extension of the input path would be
    replaced by [_mask.] and that extension.  For [scene.img], that is
    [scene_mask.img]; the script writes a GeoTIFF to [scene_mask.tif]. *)
Lemma clip_output_name_counterexample :
  let args := Clip.mk_Args "scene.img" "field.shp" in
  Run.returned (Clip.main Samples.clip_env args) = Some tt /\
  Run.trace (Clip.main Samples.clip_env args)
  = [Clip.OpenVector "field.shp";
     Clip.Print "Clipping raster...";
     Clip.OpenRaster "scene.img";
     Clip.WriteRaster "scene_mask.tif"
       (Clip.update_meta (ds_meta Samples.scene) Samples.clipped
          Samples.geotransform)
       Samples.clipped;
     Clip.Print "Done!"] /\
  Clip.split_ext "scene.img" = ("scene", "img")%string /\
  Clip.spec_output_name (Clip.inputRaster args) = "scene_mask.img"%string /\
  Clip.output_name (Clip.inputRaster args)
    <> Clip.spec_output_name (Clip.inputRaster args).
Proof.
  intros args. split; [reflexivity|]. split; [reflexivity|].
  split; [reflexivity|]. split; [reflexivity|].
  vm_compute. discriminate.
Qed.

(** * Further properties *)

(** ** Band-first and band-last layouts *)

(** X1. Going from the band-last layout to the band-first one and back
    gives the array one started from. *)
Theorem reshape_round_trip_image {A : Type} `{Inhabited A} (img : ndarray A) :
  well_formed img ->
  MNF_cmd.reshape_as_image (MNF_cmd.reshape_as_raster img) = img.
Proof.
  intros Hwf. apply ndarray_eq.
  - apply well_formed_tab3.
  - exact Hwf.
  - reflexivity.
  - intros i j k Hi Hj Hk.
    change (dim0 (MNF_cmd.reshape_as_image (MNF_cmd.reshape_as_raster img)))
      with (dim0 img) in Hi.
    change (dim1 (MNF_cmd.reshape_as_image (MNF_cmd.reshape_as_raster img)))
      with (dim1 img) in Hj.
    change (dim2 (MNF_cmd.reshape_as_image (MNF_cmd.reshape_as_raster img)))
      with (dim2 img) in Hk.
    rewrite get_reshape_as_image by assumption.
    apply get_reshape_as_raster; assumption.
Qed.

Lemma reshape_round_trip_image_witness :
  well_formed Samples.image_3_bands /\
  MNF_cmd.reshape_as_raster Samples.image_3_bands = mk_ndarray 3 1 1 [7; 8; 9]%R /\
  MNF_cmd.reshape_as_image (MNF_cmd.reshape_as_raster Samples.image_3_bands)
    = Samples.image_3_bands.
Proof.
  split; [reflexivity|]. split; [reflexivity|].
  apply (reshape_round_trip_image Samples.image_3_bands). reflexivity.
Defined.

(** X2. [reshape_as_image] turns an array of shape (bands, rows, cols) into
    an array of shape (rows, cols, bands) that owns as many elements as its
    shape announces, whatever the input, and whose element at
    [row, col, band] is the element of the input at [band, row, col];
    [reshape_as_raster] does the converse. *)
Theorem reshape_moves_band_axis {A : Type} `{Inhabited A} (arr : ndarray A)
    (band row col : nat) :
  band < dim0 arr -> row < dim1 arr -> col < dim2 arr ->
  (shape (MNF_cmd.reshape_as_image arr) = (dim1 arr, dim2 arr, dim0 arr) /\
   well_formed (MNF_cmd.reshape_as_image arr) /\
   get (MNF_cmd.reshape_as_image arr) row col band = get arr band row col) /\
  (shape (MNF_cmd.reshape_as_raster arr) = (dim2 arr, dim0 arr, dim1 arr) /\
   well_formed (MNF_cmd.reshape_as_raster arr) /\
   get (MNF_cmd.reshape_as_raster arr) col band row = get arr band row col).
Proof.
  intros Hb Hr Hc. split; (split; [reflexivity|]); (split; [apply well_formed_tab3|]).
  - apply get_reshape_as_image; assumption.
  - apply get_reshape_as_raster; assumption.
Qed.

Lemma reshape_moves_band_axis_witness :
  get Samples.pixels 2 0 1 = 5%R /\
  get (MNF_cmd.reshape_as_image Samples.pixels) 0 1 2 = get Samples.pixels 2 0 1.
Proof.
  split; [reflexivity|].
  apply (reshape_moves_band_axis Samples.pixels 2 0 1); simpl; lia.
Defined.

(** ** Normalizing a whole raster *)

Section AlongAxis.
Context {A B : Type} `{Inhabited A} `{Inhabited B}.

Lemma map_nth_seq (l : list B) (d : B) :
  map (fun i => nth i l d) (seq 0 (length l)) = l.
Proof.
  apply (nth_ext _ _ d d).
  - rewrite length_map, length_seq. reflexivity.
  - intros n Hn. rewrite length_map, length_seq in Hn.
    rewrite (nth_indep _ d (nth 0 l d)) by (rewrite length_map, length_seq; lia).
    rewrite (map_nth (fun i => nth i l d)), seq_nth by lia. reflexivity.
Qed.

Lemma length_column (a : ndarray A) j k : length (column a j k) = dim0 a.
Proof. unfold column. rewrite length_map, length_seq. reflexivity. Qed.

(** What [apply_along_axis] does with a function that keeps the length of
    the vectors it is given. *)
Lemma apply_along_axis_columns (func1d : list A -> list B) (arr : ndarray A) :
  (forall v, length (func1d v) = length v) ->
  dim1 arr * dim2 arr <> 0 ->
  exists out,
    apply_along_axis func1d arr = Some out /\
    shape out = shape arr /\
    well_formed out /\
    forall j k, j < dim1 arr -> k < dim2 arr ->
      column out j k = func1d (column arr j k).
Proof.
  intros Hlen Hn. unfold apply_along_axis.
  destruct (Nat.eqb_spec (dim1 arr * dim2 arr) 0) as [|_]; [contradiction|].
  rewrite Hlen, length_column.
  eexists. split; [reflexivity|]. split; [reflexivity|].
  split; [apply well_formed_tab3|].
  intros j k Hj Hk. unfold column at 1. cbn [dim0].
  rewrite <- (map_nth_seq (func1d (column arr j k)) inhabitant) at 1.
  rewrite Hlen, length_column.
  apply map_ext_in. intros i Hi. apply in_seq in Hi.
  rewrite get_tab3 by (try assumption; lia). reflexivity.
Qed.
End AlongAxis.

(** X6. On a raster of an integer dtype,
    [np.apply_along_axis(BrigthnessNormalization, 0, r2)] raises when the
    raster has no pixel.  On any other raster it returns an array of the
    same shape in which the band vector of every pixel is what
    [BrigthnessNormalization] returns for the band vector of that pixel of
    [r2]: the pixels are normalized one by one. *)
Theorem normalize_raster (dt : Dtype.int_dtype) (r2 : ndarray Z) :
  (dim1 r2 * dim2 r2 = 0 ->
     apply_along_axis (Dtype.BrigthnessNormalization dt) r2 = None) /\
  (dim1 r2 * dim2 r2 <> 0 ->
     exists bn,
       apply_along_axis (Dtype.BrigthnessNormalization dt) r2 = Some bn /\
       shape bn = shape r2 /\
       well_formed bn /\
       forall row col, row < dim1 r2 -> col < dim2 r2 ->
         column bn row col = Dtype.BrigthnessNormalization dt (column r2 row col)).
Proof.
  split.
  - intros Hz. unfold apply_along_axis. rewrite Hz. reflexivity.
  - intros Hn.
    apply (apply_along_axis_columns (Dtype.BrigthnessNormalization dt) r2);
      [|exact Hn].
    intros v. unfold Dtype.BrigthnessNormalization, Dtype.np_true_divide.
    apply length_map.
Qed.

Lemma normalize_raster_witness :
  dim1 Observe.pixels_uint8 * dim2 Observe.pixels_uint8 <> 0 /\
  column Observe.pixels_uint8 0 0 = [16; 0]%Z /\
  exists bn,
    apply_along_axis (Dtype.BrigthnessNormalization Dtype.uint8)
      Observe.pixels_uint8 = Some bn /\
    shape bn = (2, 1, 2) /\
    column bn 0 0 = Dtype.BrigthnessNormalization Dtype.uint8 [16; 0]%Z.
Proof.
  assert (Hn : dim1 Observe.pixels_uint8 * dim2 Observe.pixels_uint8 <> 0)
    by (simpl; lia).
  split; [exact Hn|]. split; [reflexivity|].
  destruct (proj2 (normalize_raster Dtype.uint8 Observe.pixels_uint8) Hn)
    as (bn & Hbn & Hshape & _ & Hcol).
  exists bn. split; [exact Hbn|]. split; [exact Hshape|].
  exact (Hcol 0 0 ltac:(simpl; lia) ltac:(simpl; lia)).
Defined.

(** ** Loops over the discovered files *)

Section LoopFacts.
Context {E A : Type}.
Implicit Types (body : A -> Run.M E unit).

Lemma for_each_ext_in (xs : list A) body1 body2 :
  (forall x, In x xs -> body1 x = body2 x) ->
  Run.for_each xs body1 = Run.for_each xs body2.
Proof.
  induction xs as [|x xs IH]; intros Hb; [reflexivity|].
  simpl. rewrite (Hb x) by (left; reflexivity).
  rewrite IH by (intros y Hy; apply Hb; right; exact Hy). reflexivity.
Qed.

(** An exception in the body ends the loop: what follows the element that
    raised is not visited. *)
Lemma for_each_raise (done rest : list A) (x : A) body :
  Run.returned (body x) = None ->
  Run.for_each (done ++ x :: rest) body = Run.for_each (done ++ [x]) body /\
  Run.returned (Run.for_each (done ++ x :: rest) body) = None.
Proof.
  intros Hx. induction done as [|y done [IH1 IH2]].
  - simpl. destruct (body x) as [t [u|]]; [discriminate|]. split; reflexivity.
  - simpl. destruct (body y) as [t [u|]]; simpl; [|split; reflexivity].
    rewrite IH1 in IH2 |- *. split; [reflexivity|].
    destruct (Run.for_each (done ++ [x]) body) as [t' r]. exact IH2.
Qed.
End LoopFacts.

Section BatchFacts.
Import MNF_cmd.
Variable L : Libraries.
Variable env : Env.

Lemma variance_body_unreadable args path :
  rasterio_open env path = None ->
  variance_body L env args path = ([OpenRaster path], None).
Proof.
  intros Hopen. unfold variance_body.
  rewrite bind_emit, Hopen. reflexivity.
Qed.

Lemma transform_body_unreadable args transform n path :
  rasterio_open env path = None ->
  transform_body env args transform n path = ([OpenRaster path], None).
Proof.
  intros Hopen. unfold transform_body.
  rewrite bind_emit, Hopen. reflexivity.
Qed.

Lemma prepare_image_irrelevant_flag r2 :
  dim1 r2 * dim2 r2 <> 0 ->
  prepare_image true r2 = prepare_image false r2.
Proof. intros Hn. rewrite prepare_image_preprop by exact Hn. reflexivity. Qed.
End BatchFacts.

(** X7. When a discovered file cannot be opened, the batch stops there with
    the exception: the run is the run on the files up to and including that
    one, and no later file is opened, transformed or written.  When the
    file is the first one, the run creates the output directory if needed,
    tries to open the file, and nothing else. *)
Theorem unreadable_file_stops_batch (L : MNF_cmd.Libraries) (env : MNF_cmd.Env)
    (args : MNF_cmd.Args) (done rest : list string) (path : string) :
  MNF_cmd.variance args = true \/ MNF_cmd.method args = 1%Z
    \/ MNF_cmd.method args = 2%Z ->
  MNF_cmd.glob env ("*." ++ MNF_cmd.format args)%string = done ++ path :: rest ->
  MNF_cmd.rasterio_open env path = None ->
  Run.returned (MNF_cmd.main L env args) = None /\
  MNF_cmd.main L env args
  = MNF_cmd.main L
      (MNF_cmd.mk_Env (fun _ => done ++ [path]) (MNF_cmd.path_exists env)
         (MNF_cmd.rasterio_open env))
      args /\
  (done = [] ->
   MNF_cmd.main L env args
   = ((if MNF_cmd.path_exists env "MNF" then [] else [MNF_cmd.Makedirs "MNF"])
        ++ [MNF_cmd.OpenRaster path], None)).
Proof.
  intros Hmode Hglob Hopen.
  assert (Hloop : forall body : string -> MNF_cmd.IO unit,
            body path = ([MNF_cmd.OpenRaster path], None) ->
            forall first : MNF_cmd.IO unit,
            Run.returned (Run.bind first (fun _ => Run.for_each (done ++ path :: rest) body)) = None /\
            Run.bind first (fun _ => Run.for_each (done ++ path :: rest) body)
            = Run.bind first (fun _ => Run.for_each (done ++ [path]) body)).
  { intros body Hbody first.
    destruct (for_each_raise done rest path body) as [H1 H2];
      [rewrite Hbody; reflexivity|].
    rewrite H1. split; [|reflexivity].
    rewrite H1 in H2.
    destruct first as [t [u|]]; simpl; [|reflexivity].
    destruct (Run.for_each (done ++ [path]) body) as [t' r]. exact H2. }
  unfold MNF_cmd.main. simpl MNF_cmd.glob. simpl MNF_cmd.path_exists.
  rewrite Hglob.
  destruct (MNF_cmd.variance args) eqn:Hv.
  - pose proof (Hloop _ (variance_body_unreadable L env args path Hopen)) as Hl.
    split; [apply Hl|]. split; [apply Hl|].
    intros ->. simpl. rewrite variance_body_unreadable by exact Hopen.
    destruct (MNF_cmd.path_exists env "MNF"); reflexivity.
  - destruct Hmode as [Hm|[Hm|Hm]]; [discriminate| |];
      rewrite Hm; simpl Z.eqb; cbv iota.
    + pose proof (Hloop _ (transform_body_unreadable env args
                             (MNF_cmd.MNF L) 1 path Hopen)) as Hl.
      split; [apply Hl|]. split; [apply Hl|].
      intros ->. simpl. rewrite transform_body_unreadable by exact Hopen.
      destruct (MNF_cmd.path_exists env "MNF"); reflexivity.
    + pose proof (Hloop _ (transform_body_unreadable env args
                             (MNF_cmd.MNF_reduce_component_2_noise_and_invert L)
                             2 path Hopen)) as Hl.
      split; [apply Hl|]. split; [apply Hl|].
      intros ->. simpl. rewrite transform_body_unreadable by exact Hopen.
      destruct (MNF_cmd.path_exists env "MNF"); reflexivity.
Qed.

Lemma unreadable_file_stops_batch_witness :
  let args := MNF_cmd.mk_Args "tif" 3 1 false false in
  MNF_cmd.rasterio_open Observe.env_unreadable "broken.tif" = None /\
  Run.returned (MNF_cmd.main Samples.libraries Observe.env_unreadable args) = None /\
  Observe.written_paths
    (Run.trace (MNF_cmd.main Samples.libraries Observe.env_unreadable args))
  = ["MNF/scene_MNF.tif"%string].
Proof.
  intros args. split; [reflexivity|]. split; [|reflexivity].
  apply (unreadable_file_stops_batch Samples.libraries Observe.env_unreadable args
           ["scene.tif"%string] ["later.tif"%string] "broken.tif"%string).
  - right. left. reflexivity.
  - reflexivity.
  - reflexivity.
Defined.

Section DirectoryFacts.
Import MNF_cmd.

Lemma no_directory_variance_body L env args path :
  Forall (fun e => ~ Observe.creates_directory e)
         (Run.trace (variance_body L env args path)).
Proof.
  unfold variance_body, explained_variance.
  repeat (first
    [ apply Forall_trace_bind; [| intros ? _]
    | apply Forall_trace_emit; intros []
    | apply Forall_trace_call ]).
Qed.

Lemma no_directory_transform_body env args transform n path :
  Forall (fun e => ~ Observe.creates_directory e)
         (Run.trace (transform_body env args transform n path)).
Proof.
  unfold transform_body, saveMNF.
  repeat (first
    [ apply Forall_trace_bind; [| intros ? _]
    | apply Forall_trace_emit; intros []
    | apply Forall_trace_call ]).
Qed.
End DirectoryFacts.

(** X8. In every mode, the usage error included, the output directory is
    created when and only when it does not exist, before anything else, and
    only once: the trace is that one event, if the directory was missing,
    followed by events that create no directory. *)
Theorem output_directory_created_once (L : MNF_cmd.Libraries) (env : MNF_cmd.Env)
    (args : MNF_cmd.Args) :
  exists t,
    Run.trace (MNF_cmd.main L env args)
    = (if MNF_cmd.path_exists env "MNF" then [] else [MNF_cmd.Makedirs "MNF"]) ++ t /\
    Forall (fun e => ~ Observe.creates_directory e) t.
Proof.
  unfold MNF_cmd.main. rewrite trace_bind.
  set (rest := if MNF_cmd.variance args then _ else _).
  exists (Run.trace rest). split.
  - destruct (MNF_cmd.path_exists env "MNF"); reflexivity.
  - subst rest.
    destruct (MNF_cmd.variance args); [|destruct (_ =? 1)%Z; [|destruct (_ =? 2)%Z]].
    + apply Forall_trace_for_each. intros path _. apply no_directory_variance_body.
    + apply Forall_trace_for_each. intros path _. apply no_directory_transform_body.
    + apply Forall_trace_for_each. intros path _. apply no_directory_transform_body.
    + apply Forall_trace_for_each. intros line _. apply Forall_trace_emit. intros [].
Qed.

(** X9. [-p] changes nothing in any mode: provided no raster of the
    directory is without pixels (the normalization would raise on it), the
    run with [-p] is the run without it, event for event. *)
Theorem preprop_flag_has_no_effect (L : MNF_cmd.Libraries) (env : MNF_cmd.Env)
    (fmt : string) (c m : Z) (v : bool) :
  (forall path r r2,
     MNF_cmd.rasterio_open env path = Some r -> ds_read r = Some r2 ->
     dim1 r2 * dim2 r2 <> 0) ->
  MNF_cmd.main L env (MNF_cmd.mk_Args fmt c m true v)
  = MNF_cmd.main L env (MNF_cmd.mk_Args fmt c m false v).
Proof.
  intros Hpix.
  assert (Hprep : forall path r r2,
            MNF_cmd.rasterio_open env path = Some r -> ds_read r = Some r2 ->
            MNF_cmd.prepare_image true r2 = MNF_cmd.prepare_image false r2).
  { intros path r r2 Hopen Hread.
    apply prepare_image_irrelevant_flag. exact (Hpix path r r2 Hopen Hread). }
  assert (Hvar : forall path,
            MNF_cmd.variance_body L env (MNF_cmd.mk_Args fmt c m true v) path
            = MNF_cmd.variance_body L env (MNF_cmd.mk_Args fmt c m false v) path).
  { intros path. unfold MNF_cmd.variance_body. simpl MNF_cmd.preprop.
    rewrite !bind_emit.
    destruct (MNF_cmd.rasterio_open env path) as [r|] eqn:Hopen; [|reflexivity].
    rewrite !bind_call_some.
    destruct (ds_read r) as [r2|] eqn:Hread; [|reflexivity].
    rewrite !bind_call_some.
    rewrite (Hprep path r r2 Hopen Hread). reflexivity. }
  assert (Htr : forall transform n path,
            MNF_cmd.transform_body env (MNF_cmd.mk_Args fmt c m true v) transform n path
            = MNF_cmd.transform_body env (MNF_cmd.mk_Args fmt c m false v) transform n path).
  { intros transform n path. unfold MNF_cmd.transform_body. simpl MNF_cmd.preprop.
    rewrite !bind_emit.
    destruct (MNF_cmd.rasterio_open env path) as [r|] eqn:Hopen; [|reflexivity].
    rewrite !bind_call_some.
    destruct (ds_read r) as [r2|] eqn:Hread; [|reflexivity].
    rewrite !bind_call_some.
    rewrite (Hprep path r r2 Hopen Hread). reflexivity. }
  unfold MNF_cmd.main. simpl.
  destruct v; [|destruct (m =? 1)%Z; [|destruct (m =? 2)%Z]].
  - rewrite (for_each_ext_in _ _ _ (fun path _ => Hvar path)). reflexivity.
  - rewrite (for_each_ext_in _ _ _ (fun path _ => Htr (MNF_cmd.MNF L) m path)).
    reflexivity.
  - rewrite (for_each_ext_in _ _ _
               (fun path _ => Htr (MNF_cmd.MNF_reduce_component_2_noise_and_invert L)
                                m path)).
    reflexivity.
  - reflexivity.
Qed.

Lemma preprop_flag_has_no_effect_witness :
  MNF_cmd.main Samples.libraries Samples.env (MNF_cmd.mk_Args "tif" 3 2 true false)
  = MNF_cmd.main Samples.libraries Samples.env (MNF_cmd.mk_Args "tif" 3 2 false false).
Proof.
  apply (preprop_flag_has_no_effect Samples.libraries Samples.env "tif" 3 2 false).
  intros path r r2 Hopen Hread.
  unfold Samples.env in Hopen. simpl in Hopen.
  destruct (String.eqb path "scene.tif"); [|discriminate].
  injection Hopen as <-. injection Hread as <-. simpl. lia.
Defined.

Section LoopTraces.
Context {E A : Type}.

End LoopTraces.

(** ** Names of the output files *)

Section NameFacts.
Local Open Scope string_scope.

Lemma string_app_assoc (a b c : string) : (a ++ b) ++ c = a ++ (b ++ c).
Proof.
  induction a as [|x a IH]; [reflexivity|].
  change (String x a ++ b) with (String x (a ++ b)).
  change (String x (a ++ b) ++ c) with (String x ((a ++ b) ++ c)).
  rewrite IH. reflexivity.
Qed.

Lemma string_app_inv_head (p x y : string) : p ++ x = p ++ y -> x = y.
Proof.
  induction p as [|c p IH]; intros Heq; [exact Heq|].
  change (String c p ++ x) with (String c (p ++ x)) in Heq.
  change (String c p ++ y) with (String c (p ++ y)) in Heq.
  injection Heq as Heq. apply IH, Heq.
Qed.

Lemma string_app_inv_tail (a b s : string) : a ++ s = b ++ s -> a = b.
Proof.
  intros Heq.
  assert (Hlen : String.length a = String.length b).
  { apply (f_equal String.length) in Heq.
    rewrite !string_length_app in Heq. lia. }
  revert b Heq Hlen. induction a as [|c a IH]; intros [|c' b] Heq Hlen;
    try discriminate Hlen; [reflexivity|].
  change (String c a ++ s) with (String c (a ++ s)) in Heq.
  change (String c' b ++ s) with (String c' (b ++ s)) in Heq.
  injection Heq as -> Heq. f_equal. apply IH; [exact Heq|].
  simpl in Hlen. lia.
Qed.

Lemma basename_from_no_slash (acc p : string) :
  Observe.has_slash p = false -> Py.basename_from acc p = acc ++ p.
Proof.
  revert acc. induction p as [|c p IH]; intros acc Hs.
  - simpl. induction acc as [|x acc IHa]; [reflexivity|].
    change (String x acc ++ "") with (String x (acc ++ "")).
    rewrite <- IHa. reflexivity.
  - simpl in Hs. apply orb_false_iff in Hs. destruct Hs as [Hc Hp].
    simpl. rewrite Hc. rewrite IH by exact Hp.
    rewrite string_app_assoc. reflexivity.
Qed.

Lemma basename_no_slash (p : string) :
  Observe.has_slash p = false -> Py.basename p = p.
Proof. intros Hs. unfold Py.basename. apply basename_from_no_slash, Hs. Qed.

Lemma drop_last_short (n : nat) (s : string) :
  String.length s <= n -> Py.drop_last n s = "".
Proof.
  intros Hlen. unfold Py.drop_last.
  replace (String.length s - n) with 0 by lia.
  destruct s; reflexivity.
Qed.

Lemma saved_as_three_letter_extension (stem ext : string) :
  String.length ext = 3 ->
  Observe.saved_as (stem ++ "." ++ ext) = "MNF/" ++ stem ++ "_MNF.tif".
Proof.
  intros Hext. unfold Observe.saved_as.
  replace 4 with (String.length ("." ++ ext))
    by (change ("." ++ ext) with (String "." ext); simpl; lia).
  rewrite drop_last_suffix. reflexivity.
Qed.
End NameFacts.

(** X11. For an input file found in the working directory (its path has no
    slash) whose name ends in a dot and an extension of three characters,
    [saveMNF] writes to [MNF/<stem>_MNF.tif]: the extension of the output
    is [tif] whatever the extension of the input; and two such inputs with
    different stems are never written to the same file. *)
Theorem mnf_output_name (stem ext : string)
    (n_components : Z) (img : ndarray R) (inputRaster : DatasetReader)
    (dtype0 : string) :
  Observe.has_slash (stem ++ "." ++ ext) = false ->
  String.length ext = 3 ->
  head (ds_dtypes inputRaster) = Some dtype0 ->
  Observe.written_paths
    (Run.trace (MNF_cmd.saveMNF (Py.basename (stem ++ "." ++ ext)) n_components
                  img inputRaster))
  = [("MNF/" ++ stem ++ "_MNF.tif")%string] /\
  forall stem' ext' : string,
    String.length ext' = 3 ->
    Observe.saved_as (stem' ++ "." ++ ext') = Observe.saved_as (stem ++ "." ++ ext) ->
    stem' = stem.
Proof.
  intros Hs Hext Hd. split.
  - rewrite basename_no_slash by exact Hs.
    unfold MNF_cmd.saveMNF. rewrite Hd, bind_call_some.
    fold (Observe.saved_as (stem ++ "." ++ ext)).
    rewrite saved_as_three_letter_extension by exact Hext. reflexivity.
  - intros stem' ext' Hext' Heq.
    rewrite !saved_as_three_letter_extension in Heq by assumption.
    apply string_app_inv_head in Heq.
    apply string_app_inv_tail in Heq. exact Heq.
Qed.

Lemma mnf_output_name_witness :
  Observe.written_paths
    (Run.trace (MNF_cmd.saveMNF (Py.basename "scene.img") 2
                  Samples.image_3_bands Samples.scene))
  = ["MNF/scene_MNF.tif"%string].
Proof.
  apply (mnf_output_name "scene" "img" 2 Samples.image_3_bands
           Samples.scene "float64"); reflexivity.
Defined.

(** X12. Every input whose name has at most four characters is written to
    the same file, [MNF/_MNF.tif]: [name[:-4]] is then empty. *)
Theorem mnf_output_short_name (name : string) (n_components : Z)
    (img : ndarray R) (inputRaster : DatasetReader) (dtype0 : string) :
  String.length name <= 4 ->
  head (ds_dtypes inputRaster) = Some dtype0 ->
  Observe.written_paths
    (Run.trace (MNF_cmd.saveMNF name n_components img inputRaster))
  = ["MNF/_MNF.tif"%string].
Proof.
  intros Hlen Hd. unfold MNF_cmd.saveMNF.
  rewrite Hd, bind_call_some, drop_last_short by exact Hlen. reflexivity.
Qed.

Lemma mnf_output_short_name_witness :
  Observe.written_paths
    (Run.trace (MNF_cmd.saveMNF "a.nc" 2 Samples.image_3_bands Samples.scene))
  = ["MNF/_MNF.tif"%string] /\
  Observe.written_paths
    (Run.trace (MNF_cmd.saveMNF "b.nc" 2 Samples.image_3_bands Samples.scene))
  = ["MNF/_MNF.tif"%string].
Proof.
  split.
  - apply (mnf_output_short_name "a.nc" 2 Samples.image_3_bands Samples.scene
             "float64"); [simpl; lia | reflexivity].
  - apply (mnf_output_short_name "b.nc" 2 Samples.image_3_bands Samples.scene
             "float64"); [simpl; lia | reflexivity].
Defined.

(** ** The variance report *)

Section CumsumFacts.
Local Open Scope R_scope.

Lemma length_cumsum_from acc values :
  length (cumsum_from acc values) = length values.
Proof.
  revert acc. induction values as [|x values IH]; intros acc; [reflexivity|].
  simpl. rewrite IH. reflexivity.
Qed.

Lemma cumsum_from_lower_bound acc values :
  Forall (fun x => 0 <= x) values ->
  Forall (fun y => acc <= y) (cumsum_from acc values).
Proof.
  intros Hpos. revert acc.
  induction Hpos as [|x values Hx Hpos IH]; intros acc; [constructor|].
  simpl. constructor; [lra|].
  eapply Forall_impl; [apply IH|]. intros y Hy. simpl in Hy. lra.
Qed.

Lemma cumsum_from_nondecreasing acc values :
  Forall (fun x => 0 <= x) values ->
  StronglySorted Rle (cumsum_from acc values).
Proof.
  intros Hpos. revert acc.
  induction Hpos as [|x values Hx Hpos IH]; intros acc; [constructor|].
  simpl. constructor; [apply IH|].
  apply cumsum_from_lower_bound, Hpos.
Qed.
End CumsumFacts.

(** X13. [explained_variance] raises on an image without bands.  Otherwise
    what it computes depends on the shape of the image and on its band 0
    only: two images of the same shape that agree on band 0 give the same
    report, whatever their other bands hold. *)
Theorem explained_variance_reads_band_0 (L : MNF_cmd.Libraries)
    (img1 img2 : ndarray R) :
  (dim2 img1 = 0 -> MNF_cmd.explained_variance L img1 = ([], None)) /\
  (shape img1 = shape img2 ->
   (forall row col, row < dim0 img1 -> col < dim1 img1 ->
      get img1 row col 0 = get img2 row col 0) ->
   MNF_cmd.explained_variance L img1 = MNF_cmd.explained_variance L img2).
Proof.
  split.
  - intros Hz. unfold MNF_cmd.explained_variance, index_axis2_0.
    rewrite Hz. reflexivity.
  - intros Hshape Hband. unfold shape in Hshape.
    injection Hshape as H0 H1 H2.
    unfold MNF_cmd.explained_variance.
    assert (Hidx : index_axis2_0 img1 = index_axis2_0 img2).
    { unfold index_axis2_0. rewrite <- H0, <- H1, <- H2.
      destruct (Nat.eqb (dim2 img1) 0); [reflexivity|]. f_equal.
      apply map_ext_in. intros row Hrow. apply in_seq in Hrow.
      apply map_ext_in. intros col Hcol. apply in_seq in Hcol.
      apply Hband; lia. }
    rewrite Hidx, H2. reflexivity.
Qed.

Lemma explained_variance_reads_band_0_witness :
  MNF_cmd.explained_variance Samples.libraries (mk_ndarray 1 1 3 [7; 8; 9]%R)
  = MNF_cmd.explained_variance Samples.libraries (mk_ndarray 1 1 3 [7; 1; 2]%R).
Proof.
  apply (proj2 (explained_variance_reads_band_0 Samples.libraries
                  (mk_ndarray 1 1 3 [7; 8; 9]%R) (mk_ndarray 1 1 3 [7; 1; 2]%R))).
  - reflexivity.
  - intros row col Hrow Hcol. simpl in Hrow, Hcol.
    assert (row = 0) as -> by lia. assert (col = 0) as -> by lia. reflexivity.
Defined.

(** X14. When [explained_variance] returns, it has printed one array and
    nothing else: the running sums of the ratios the decomposition gave, as
    many values as ratios, in non-decreasing order when no ratio is
    negative. *)
Theorem explained_variance_prints_cumulative (L : MNF_cmd.Libraries)
    (img : ndarray R) :
  Run.returned (MNF_cmd.explained_variance L img) = Some tt ->
  exists band0 ratio,
    index_axis2_0 img = Some band0 /\
    MNF_cmd.pca_explained_variance_ratio L (dim2 img) band0 (dim2 img) = Some ratio /\
    Run.trace (MNF_cmd.explained_variance L img) = [MNF_cmd.PrintArray (cumsum ratio)] /\
    length (cumsum ratio) = length ratio /\
    (Forall (fun x => (0 <= x)%R) ratio -> StronglySorted Rle (cumsum ratio)).
Proof.
  unfold MNF_cmd.explained_variance.
  destruct (index_axis2_0 img) as [band0|] eqn:Hband; [|discriminate].
  rewrite bind_call_some.
  destruct (MNF_cmd.pca_explained_variance_ratio L (dim2 img) band0 (dim2 img))
    as [ratio|] eqn:Hratio; [|discriminate].
  rewrite bind_call_some. intros _.
  exists band0, ratio. split; [reflexivity|]. split; [exact Hratio|].
  split; [reflexivity|]. split.
  - apply length_cumsum_from.
  - apply cumsum_from_nondecreasing.
Qed.

Lemma explained_variance_prints_cumulative_witness :
  Run.returned (MNF_cmd.explained_variance Samples.libraries Samples.image_3_bands)
    = Some tt /\
  exists band0 ratio,
    index_axis2_0 Samples.image_3_bands = Some band0 /\
    Run.trace (MNF_cmd.explained_variance Samples.libraries Samples.image_3_bands)
      = [MNF_cmd.PrintArray (cumsum ratio)] /\
    length (cumsum ratio) = length ratio.
Proof.
  assert (Hret : Run.returned (MNF_cmd.explained_variance Samples.libraries
                                 Samples.image_3_bands) = Some tt) by reflexivity.
  split; [exact Hret|].
  destruct (explained_variance_prints_cumulative Samples.libraries
              Samples.image_3_bands Hret)
    as (band0 & ratio & Hband & _ & Htrace & Hlen & _).
  exists band0, ratio. split; [exact Hband|]. split; [exact Htrace | exact Hlen].
Defined.

(** ** Method 2 for any number of components *)

Lemma slice_bound_le (len : nat) (i : Z) : slice_bound len i <= len.
Proof. unfold slice_bound. destruct (Z.ltb_spec i 0); lia. Qed.

(** X15. Whatever integer [n_components] is, zero and negative values
    included, the cube that [MNF_reduce_component_2_noise_and_invert]
    returns has the rows and columns of the inverse result, fewer bands
    than it (none when [n_components] is 0), and its band [k] is band
    [k + 1] of the inverse result: band 0 is never returned. *)
Theorem MNF_reduce_never_returns_band_0 (L : MNF_cmd.Libraries)
    (img : ndarray R) (n_components : Z) (r2 : ndarray R) :
  MNF_cmd.MNF_reduce_component_2_noise_and_invert L img n_components = Some r2 ->
  exists mnf tdata' r,
    MNF_cmd.mnf_inverse_transform L mnf tdata' = Some r /\
    dim0 r2 = dim0 r /\ dim1 r2 = dim1 r /\
    dim2 r2 <= dim2 r - 1 /\
    (n_components = 0%Z -> dim2 r2 = 0) /\
    forall i j k, i < dim0 r -> j < dim1 r -> k < dim2 r2 ->
      get r2 i j k = get r i j (k + 1).
Proof.
  unfold MNF_cmd.MNF_reduce_component_2_noise_and_invert.
  destruct (MNF_cmd.mnf_apply L (MNF_cmd.ns_MNF L) img) as [[mnf tdata]|];
    [|discriminate].
  destruct (MNF_cmd.dn_denoise_bands L (slice_axis2 tdata 1 2) 15 2)
    as [smoothed|]; [|discriminate].
  destruct (set_slice_axis2 tdata 1 2 smoothed) as [tdata'|]; [|discriminate].
  destruct (MNF_cmd.mnf_inverse_transform L mnf tdata') as [r|] eqn:Hinv;
    [|discriminate].
  intros [= <-]. exists mnf, tdata', r.
  pose proof (slice_bound_le (dim2 r) (n_components + 1)) as Hhi.
  assert (Hlo : slice_bound (dim2 r) 1 = Nat.min 1 (dim2 r))
    by (rewrite slice_bound_nonneg by lia; reflexivity).
  split; [exact Hinv|]. split; [reflexivity|]. split; [reflexivity|].
  cbn [slice_axis2 dim2]. rewrite Hlo.
  split; [lia|]. split.
  - intros ->. rewrite slice_bound_nonneg by lia. simpl Z.to_nat. lia.
  - intros i j k Hi Hj Hk.
    change (get (slice_axis2 r 1 (n_components + 1)) i j k = get r i j (k + 1)).
    rewrite get_slice_axis2 by (try assumption; rewrite Hlo; exact Hk).
    rewrite Hlo. f_equal. lia.
Qed.

Lemma MNF_reduce_never_returns_band_0_witness :
  MNF_cmd.MNF_reduce_component_2_noise_and_invert
    Samples.libraries Samples.image_3_bands (-1)
    = Some (mk_ndarray 1 1 0 []) /\
  exists r : ndarray R, dim2 (mk_ndarray 1 1 0 (@nil R)) <= dim2 r - 1.
Proof.
  assert (Hrun : MNF_cmd.MNF_reduce_component_2_noise_and_invert
                   Samples.libraries Samples.image_3_bands (-1)
                 = Some (mk_ndarray 1 1 0 [])) by reflexivity.
  split; [exact Hrun|].
  destruct (MNF_reduce_never_returns_band_0 Samples.libraries
              Samples.image_3_bands (-1) _ Hrun)
    as (mnf & tdata' & r & _ & _ & _ & Hle & _).
  exists r. exact Hle.
Defined.

(** ** Failures of the clip script *)

(** X16. The clip script opens the vector file first: when that fails the
    raster is not even opened.  Whenever the run ends with an exception (an
    input that cannot be opened, a mask that cannot be computed), it has
    written no raster and has not printed [Done!]. *)
Theorem clip_failure_writes_nothing (env : Clip.Env) (args : Clip.Args) :
  (Clip.fiona_open env (Clip.inputshape args) = None ->
   Clip.main env args = ([Clip.OpenVector (Clip.inputshape args)], None)) /\
  (Run.returned (Clip.main env args) = None ->
   Forall (fun e => ~ Observe.clip_output_event e) (Run.trace (Clip.main env args))).
Proof.
  unfold Clip.main. rewrite bind_emit. split.
  - intros ->. reflexivity.
  - destruct (Clip.fiona_open env (Clip.inputshape args)) as [shapefile|].
    + rewrite bind_call_some, !bind_emit.
      destruct (Clip.rasterio_open env (Clip.inputRaster args)) as [src|].
      * rewrite bind_call_some.
        destruct (Clip.rasterio_mask env src (map Clip.geometry shapefile) true)
          as [[img transform]|].
        -- rewrite bind_call_some. simpl. discriminate.
        -- intros _. simpl. repeat constructor; simpl; intros H;
             first [exact H | discriminate H].
      * intros _. simpl. repeat constructor; simpl; intros H;
          first [exact H | discriminate H].
    + intros _. simpl. repeat constructor. simpl. intros H. exact H.
Qed.

Lemma clip_failure_writes_nothing_witness :
  let args := Clip.mk_Args "missing.tif" "field.shp" in
  Clip.main Samples.clip_env args
  = ([Clip.OpenVector "field.shp"; Clip.Print "Clipping raster...";
      Clip.OpenRaster "missing.tif"], None) /\
  Forall (fun e => ~ Observe.clip_output_event e)
         (Run.trace (Clip.main Samples.clip_env args)).
Proof.
  intros args. split; [reflexivity|].
  apply (proj2 (clip_failure_writes_nothing Samples.clip_env args)).
  reflexivity.
Defined.

(** X17. Updating the metadata drops no key: the keys of the output
    metadata are those of the input together with driver, height, width
    and transform; and updating twice is updating once. *)
Theorem update_meta_keys (meta : gmap string meta_value) (img : ndarray R)
    (transform : Affine) :
  dom (Clip.update_meta meta img transform)
  = dom meta ∪ {["driver"; "height"; "width"; "transform"]}%string /\
  Clip.update_meta (Clip.update_meta meta img transform) img transform
  = Clip.update_meta meta img transform.
Proof.
  split.
  - unfold Clip.update_meta. rewrite !dom_insert_L.
    apply set_eq. intros key. set_unfold. tauto.
  - apply map_eq. intros key.
    destruct (decide (key = "driver"%string)) as [->|Hd];
      [|destruct (decide (key = "height"%string)) as [->|Hh];
        [|destruct (decide (key = "width"%string)) as [->|Hw];
          [|destruct (decide (key = "transform"%string)) as [->|Ht]]]].
    + rewrite !(proj1 (update_meta_set _ _ _)). reflexivity.
    + rewrite !(proj1 (proj2 (update_meta_set _ _ _))). reflexivity.
    + rewrite !(proj1 (proj2 (proj2 (update_meta_set _ _ _)))). reflexivity.
    + rewrite !(proj2 (proj2 (proj2 (update_meta_set _ _ _)))). reflexivity.
    + rewrite !update_meta_other by assumption. reflexivity.
Qed.

(** ** The variance report over a batch *)






(** ** What a run may write *)

Lemma derived_transform_body (env : MNF_cmd.Env) (args : MNF_cmd.Args)
    (transform : ndarray R -> Z -> option (ndarray R)) (n : Z)
    (files : list string) (path : string) :
  In path files ->
  Forall (Observe.derived_from_input env files)
         (Run.trace (MNF_cmd.transform_body env args transform n path)).
Proof.
  intros Hin. unfold MNF_cmd.transform_body, MNF_cmd.saveMNF.
  apply Forall_trace_bind; [apply Forall_trace_emit; exact I|]. intros _ _.
  apply Forall_trace_bind; [apply Forall_trace_call|]. intros r Hr.
  apply Forall_trace_bind; [apply Forall_trace_call|]. intros r2 _.
  apply Forall_trace_bind; [apply Forall_trace_call|]. intros img _.
  apply Forall_trace_bind; [apply Forall_trace_emit; exact I|]. intros _ _.
  apply Forall_trace_bind; [apply Forall_trace_call|]. intros mnf _.
  apply Forall_trace_bind; [apply Forall_trace_call|]. intros dtype0 Hd.
  apply Forall_trace_emit. simpl.
  exists path, r. repeat split; first [assumption | reflexivity].
Qed.

(** X19. In every run, whatever fails on the way, each raster written is a
    GeoTIFF under [MNF/] named after one of the discovered files, and it
    carries the height, width, data type of the first band, CRS and affine
    transform of that input. *)
Theorem writes_derive_from_inputs (L : MNF_cmd.Libraries) (env : MNF_cmd.Env)
    (args : MNF_cmd.Args) :
  Forall (Observe.derived_from_input env
            (MNF_cmd.glob env ("*." ++ MNF_cmd.format args)%string))
         (Run.trace (MNF_cmd.main L env args)).
Proof.
  unfold MNF_cmd.main.
  apply Forall_trace_bind.
  { destruct (negb _); [apply Forall_trace_emit; exact I | constructor]. }
  intros _ _.
  destruct (MNF_cmd.variance args); [|destruct (_ =? 1)%Z; [|destruct (_ =? 2)%Z]].
  - apply Forall_trace_for_each. intros path _.
    eapply Forall_impl; [apply report_variance_body|].
    intros [] He; simpl in *; first [exact I | contradiction].
  - apply Forall_trace_for_each. intros path Hin.
    apply derived_transform_body, Hin.
  - apply Forall_trace_for_each. intros path Hin.
    apply derived_transform_body, Hin.
  - rewrite for_each_emit. unfold Run.trace. simpl fst. repeat constructor.
Qed.
